(** * pre-commit-pylint: [run_pylint.py]

    A shallow embedding of [src/pre_commit_pylint/run_pylint.py] and the
    properties of it that the specification states.

    Python values are modelled as the interpreter has them: a [str] is a
    sequence of Unicode code points, [bytes] a sequence of octets,
    [os.environ] a finite map from [str] to [str].  The effects of the
    script (reading the manifest, testing a path, spawning a process,
    printing to the error stream, mutating [os.environ], raising) are
    threaded through a state-and-exception monad whose state records an
    event trace. *)

From Stdlib Require Import NArith ZArith List Lia Permutation.
From Stdlib.Strings Require Import String Ascii Byte.
From stdpp Require Import base option list gmap finite vector.
Import ListNotations.

Local Open Scope N_scope.

(** ** Python [str] and [bytes] *)

Module Py.

(** A [str] is a sequence of code points; [bytes] a sequence of octets. *)
Abbreviation str := (list N) (only parsing).
Abbreviation bytes := (list byte) (only parsing).

(** A string literal of the source (ASCII) as a [str]. *)
Definition lit (s : string) : str :=
  map N_of_ascii (list_ascii_of_string s).

(** A bytes literal of the source, [b'...']. *)
Definition blit (s : string) : bytes :=
  list_byte_of_string s.

Definition byte_of_N (n : N) : byte :=
  match Byte.of_N (n mod 256) with
  | Some b => b
  | None => x00
  end.

(** The line-feed character, ['\n']. *)
Definition LF : N := 10.

(** [sep.join(items)] on [str]. *)
Fixpoint join (sep : str) (items : list str) : str :=
  match items with
  | [] => []
  | [x] => x
  | x :: rest => x ++ sep ++ join sep rest
  end.

(** [''.join(items)]. *)
Definition concat_str (items : list str) : str := join [] items.

(** The lines of a text stream as [f.readlines()] returns them: the text is
    cut after every ['\n'], each line keeps its terminator, and a last line
    without terminator is returned when it is not empty.  ([open] in text
    mode has already translated the other line endings to ['\n'].) *)
Fixpoint readlines (text : str) : list str :=
  match text with
  | [] => []
  | c :: rest =>
      if N.eqb c LF then [c] :: readlines rest
      else match readlines rest with
           | [] => [[c]]
           | line :: lines => (c :: line) :: lines
           end
  end.

(** [s.split(sep)] for a separator of one character. *)
Fixpoint split (sep : N) (s : str) : list str :=
  match s with
  | [] => [[]]
  | c :: rest =>
      if N.eqb c sep then [] :: split sep rest
      else match split sep rest with
           | [] => [[c]]
           | field :: fields => (c :: field) :: fields
           end
  end.

(** [s.encode()]: UTF-8, errors='strict'.  Surrogate code points cannot be
    encoded ([UnicodeEncodeError]); values above U+10FFFF are not code
    points at all. *)
Definition utf8_char (c : N) : option bytes :=
  if c <? 0x80 then Some [byte_of_N c]
  else if c <? 0x800 then
    Some [byte_of_N (0xC0 + c / 64); byte_of_N (0x80 + c mod 64)]
  else if c <? 0x10000 then
    if (0xD800 <=? c) && (c <? 0xE000) then None
    else Some [byte_of_N (0xE0 + c / 4096);
               byte_of_N (0x80 + (c / 64) mod 64);
               byte_of_N (0x80 + c mod 64)]
  else if c <? 0x110000 then
    Some [byte_of_N (0xF0 + c / 262144);
          byte_of_N (0x80 + (c / 4096) mod 64);
          byte_of_N (0x80 + (c / 64) mod 64);
          byte_of_N (0x80 + c mod 64)]
  else None.

Fixpoint encode (s : str) : option bytes :=
  match s with
  | [] => Some []
  | c :: rest =>
      match utf8_char c, encode rest with
      | Some b, Some bs => Some (b ++ bs)
      | _, _ => None
      end
  end.

(** [b.decode()]: UTF-8, errors='strict'.  Continuation octets are
    [0x80..0xBF]; over-long forms, surrogates and values above U+10FFFF are
    rejected ([UnicodeDecodeError]). *)
Definition is_cont (n : N) : bool := (0x80 <=? n) && (n <? 0xC0).

Fixpoint decode (bs : bytes) : option str :=
  match bs with
  | [] => Some []
  | b0 :: r0 =>
      let n0 := Byte.to_N b0 in
      if n0 <? 0x80 then cons n0 <$> decode r0
      else if n0 <? 0xC0 then None
      else if n0 <? 0xE0 then
        match r0 with
        | b1 :: r1 =>
            let n1 := Byte.to_N b1 in
            let c := (n0 - 0xC0) * 64 + (n1 - 0x80) in
            if is_cont n1 && (0x80 <=? c) then cons c <$> decode r1
            else None
        | _ => None
        end
      else if n0 <? 0xF0 then
        match r0 with
        | b1 :: b2 :: r2 =>
            let n1 := Byte.to_N b1 in
            let n2 := Byte.to_N b2 in
            let c := (n0 - 0xE0) * 4096 + (n1 - 0x80) * 64 + (n2 - 0x80) in
            if is_cont n1 && is_cont n2 && (0x800 <=? c)
               && negb ((0xD800 <=? c) && (c <? 0xE000))
            then cons c <$> decode r2
            else None
        | _ => None
        end
      else if n0 <? 0xF8 then
        match r0 with
        | b1 :: b2 :: b3 :: r3 =>
            let n1 := Byte.to_N b1 in
            let n2 := Byte.to_N b2 in
            let n3 := Byte.to_N b3 in
            let c := (n0 - 0xF0) * 262144 + (n1 - 0x80) * 4096
                     + (n2 - 0x80) * 64 + (n3 - 0x80) in
            if is_cont n1 && is_cont n2 && is_cont n3
               && (0x10000 <=? c) && (c <? 0x110000)
            then cons c <$> decode r3
            else None
        | _ => None
        end
      else None
  end.

(** The inverse of joining the lines of a text with ['\n']: the character
    after each line terminator is the separator, and is dropped. *)
Fixpoint undouble (s : str) : str :=
  match s with
  | [] => []
  | c :: rest =>
      if N.eqb c LF then
        c :: match rest with
             | [] => []
             | _ :: rest' => undouble rest'
             end
      else c :: undouble rest
  end.

(** Why the operating system refuses a [str]: the file-system encoding
    (UTF-8 with [surrogateescape], as on POSIX) cannot encode it, or it
    holds a NUL. *)
Inductive refusal :=
| Unencodable
| EmbeddedNul.

(** The code points [os.fsencode] can encode: all but the surrogates, of
    which only the escapes of the octets [0x80..0xFF] are taken. *)
Definition fs_encodable (c : N) : bool :=
  (c <? 0xD800) || ((0xDC80 <=? c) && (c <=? 0xDCFF))
  || ((0xE000 <=? c) && (c <? 0x110000)).

(** What becomes of a [str] handed to the operating system, as the value
    of an environment variable, as an argument of a command or as a path:
    it is encoded first ([UnicodeEncodeError]) and then looked through for
    a NUL ([ValueError]). *)
Definition fs_error (s : str) : option refusal :=
  if forallb fs_encodable s then
    if existsb (N.eqb 0) s then Some EmbeddedNul else None
  else Some Unencodable.

(** The arguments of a command are converted in order: the first that is
    refused decides. *)
Fixpoint cmd_error (command : list str) : option refusal :=
  match command with
  | [] => None
  | arg :: rest =>
      match fs_error arg with
      | Some r => Some r
      | None => cmd_error rest
      end
  end.

(** Iterating a [str] yields its characters, each a [str] of length one:
    this is what [*s] unpacks to. *)
Definition chars (s : str) : list str := map (fun c => [c]) s.

End Py.

(** ** SHA-1, as [hashlib.sha1(data).hexdigest()] computes it

    [hashlib] is not part of the repository; the digest is the function of
    FIPS 180-4, on 32-bit words kept in [N] with the wrap-around written
    out. *)

Module SHA1.

Definition mask32 : N := 0xFFFFFFFF.
Definition add32 (x y : N) : N := (x + y) mod 0x100000000.
Definition not32 (x : N) : N := N.lxor x mask32.
Definition rotl32 (k : N) (x : N) : N :=
  N.land (N.lor (N.shiftl x k) (N.shiftr x (32 - k))) mask32.

(** Padding: a [0x80] octet, zeros up to 56 mod 64, then the bit length
    as a 64-bit big-endian integer. *)
Definition be_bytes (width : nat) (x : N) : list N :=
  map (fun i => (N.shiftr x (8 * N.of_nat i)) mod 256) (rev (seq 0 width)).

Definition pad (msg : list N) : list N :=
  let len := N.of_nat (length msg) in
  let zeros := N.to_nat ((64 - (len + 9) mod 64) mod 64) in
  msg ++ [0x80] ++ repeat 0 zeros ++ be_bytes 8 (8 * len).

(** Big-endian 32-bit words of an octet sequence. *)
Fixpoint words (l : list N) : list N :=
  match l with
  | a :: b :: c :: d :: rest =>
      (N.shiftl a 24 + N.shiftl b 16 + N.shiftl c 8 + d) :: words rest
  | _ => []
  end.

Fixpoint blocks (fuel : nat) (ws : list N) : list (list N) :=
  match fuel with
  | O => []
  | S fuel' =>
      match ws with
      | [] => []
      | _ => firstn 16 ws :: blocks fuel' (skipn 16 ws)
      end
  end.

(** The message schedule, most recent word first. *)
Fixpoint schedule (n : nat) (w : list N) : list N :=
  match n with
  | O => w
  | S n' =>
      let x := N.lxor (N.lxor (nth 2 w 0) (nth 7 w 0))
                      (N.lxor (nth 13 w 0) (nth 15 w 0)) in
      schedule n' (rotl32 1 x :: w)
  end.

Definition hstate : Type := N * N * N * N * N.

Definition round (t : nat) (s : hstate) (wt : N) : hstate :=
  let '(a, b, c, d, e) := s in
  let '(f, k) :=
    if (t <? 20)%nat then
      (N.lor (N.land b c) (N.land (not32 b) d), 0x5A827999)
    else if (t <? 40)%nat then
      (N.lxor (N.lxor b c) d, 0x6ED9EBA1)
    else if (t <? 60)%nat then
      (N.lor (N.lor (N.land b c) (N.land b d)) (N.land c d), 0x8F1BBCDC)
    else
      (N.lxor (N.lxor b c) d, 0xCA62C1D6) in
  let temp := add32 (add32 (add32 (add32 (rotl32 5 a) f) e) k) wt in
  (temp, a, rotl32 30 b, c, d).

Fixpoint rounds (t : nat) (s : hstate) (ws : list N) : hstate :=
  match ws with
  | [] => s
  | wt :: rest => rounds (S t) (round t s wt) rest
  end.

Definition compress (h : hstate) (block : list N) : hstate :=
  let w := rev (schedule 64 (rev block)) in
  let '(h0, h1, h2, h3, h4) := h in
  let '(a, b, c, d, e) := rounds 0 h w in
  (add32 h0 a, add32 h1 b, add32 h2 c, add32 h3 d, add32 h4 e).

Definition init : hstate :=
  (0x67452301, 0xEFCDAB89, 0x98BADCFE, 0x10325476, 0xC3D2E1F0).

Definition word_bytes (w : N) : list byte :=
  map Py.byte_of_N (be_bytes 4 w).

(** [hashlib.sha1(data).digest()]: twenty octets. *)
Definition digest (data : list byte) : list byte :=
  let ws := words (pad (map Byte.to_N data)) in
  let '(h0, h1, h2, h3, h4) :=
    fold_left compress (blocks (length ws) ws) init in
  word_bytes h0 ++ word_bytes h1 ++ word_bytes h2 ++
  word_bytes h3 ++ word_bytes h4.

Definition hex_digit (n : N) : N :=
  if n <? 10 then 48 + n else 87 + n.

Definition hex_byte (b : byte) : list N :=
  let n := Byte.to_N b in [hex_digit (n / 16); hex_digit (n mod 16)].

(** [hashlib.sha1(data).hexdigest()]: forty lower-case hex digits. *)
Definition hexdigest (data : list byte) : list N :=
  flat_map hex_byte (digest data).

End SHA1.

Local Close Scope N_scope.

(** ** Objects, exceptions and the outside world *)

(** The objects that reach [process_error_to_str]: the attributes of a
    [CalledProcessError] are the argument tuple of the command, and the
    captured output ([bytes]) or [None] when it was not captured. *)
Inductive pyobj :=
| PyNone
| PyBytes (b : Py.bytes)
| PyTuple (items : list Py.str).

(** [subprocess.CalledProcessError]. *)
Record CalledProcessError := {
  returncode : Z;
  cmd : pyobj;
  stdout : pyobj;
  stderr : pyobj
}.

Inductive exn :=
| RuntimeError (msg : Py.str)
| TypeError
| UnicodeEncodeError
| UnicodeDecodeError
| ValueError
| OSError (errno : Z)
| ProcessError (e : CalledProcessError).

(** The exception a refusal is raised as. *)
Definition refusal_exn (r : Py.refusal) : exn :=
  match r with
  | Py.Unencodable => UnicodeEncodeError
  | Py.EmbeddedNul => ValueError
  end.

(** What can be spliced with [*requirements]: a list of strings, or a
    string, which iterates as its characters. *)
Inductive iterable :=
| IterList (items : list Py.str)
| IterStr (s : Py.str).

Definition unpack (it : iterable) : list Py.str :=
  match it with
  | IterList items => items
  | IterStr s => Py.chars s
  end.

(** What the script does to the outside, in order.  [EvSpawn] records a
    call of [subprocess.run], with the environment the child process
    inherits; [EvProvision] marks an entry into [install_virtualenv] with
    its arguments. *)
Inductive event :=
| EvOpen (path : Py.str)
| EvExists (path : Py.str)
| EvSpawn (command : list Py.str) (env : gmap Py.str Py.str) (capture : bool)
| EvStderr (text : Py.str)
| EvProvision (venv_dir : Py.str) (requirements : iterable).

(** What comes of opening a file in text mode and reading it whole: its
    text, the line endings turned into newlines; an [OSError] of [open];
    octets that are not UTF-8; or a path refused before any file is
    opened. *)
Inductive read_result :=
| ReadText (text : Py.str)
| ReadOSError (errno : Z)
| ReadDecodeError
| ReadRefused (r : Py.refusal).

(** What comes of [subprocess.run] on a command: the process ran and
    exited; it could not be started ([OSError]); or an argument was refused
    before any process existed. *)
Inductive spawn_result :=
| Exited (code : Z) (out err : Py.bytes)
| SpawnOSError (errno : Z)
| SpawnRefused (r : Py.refusal).

(** The constants and functions of [os], [os.path] and [sys] the script
    uses. *)
Class Platform := {
  os_name : Py.str;
  os_pathsep : Py.str;
  os_pardir : Py.str;
  path_join : Py.str -> list Py.str -> Py.str;
  path_abspath : Py.str -> Py.str;
  sys_executable : Py.str
}.

(** The file system and the programs outside the script: reading a text
    file, testing a path, and running a command to completion in a given
    environment.  A path the operating system refuses is not opened and
    does not exist ([os.path.exists] answers [False] for it), and a command
    with an argument it refuses is refused, with nothing done. *)
Class World := {
  wstate : Type;
  fs_read : wstate -> Py.str -> read_result;
  fs_exists : wstate -> Py.str -> bool;
  spawn : wstate -> list Py.str -> gmap Py.str Py.str -> spawn_result * wstate;
  fs_read_refused : forall w path r,
    Py.fs_error path = Some r -> fs_read w path = ReadRefused r;
  fs_exists_taken : forall w path,
    fs_exists w path = true -> Py.fs_error path = None;
  spawn_refused : forall w command env r,
    Py.cmd_error command = Some r ->
    spawn w command env = (SpawnRefused r, w)
}.

Inductive result (A : Type) :=
| Ret (a : A)
| Raise (e : exn).
Arguments Ret {A} a.
Arguments Raise {A} e.

(** ** The script *)

Section Script.
Context {P : Platform} {W : World}.

Record state := {
  environ : gmap Py.str Py.str;
  world : wstate;
  trace : list event
}.

Definition M (A : Type) : Type := state -> result A * state.

Definition ret {A} (a : A) : M A := fun st => (Ret a, st).
Definition raise {A} (e : exn) : M A := fun st => (Raise e, st).
Definition bind {A B} (m : M A) (k : A -> M B) : M B := fun st =>
  match m st with
  | (Ret a, st') => k a st'
  | (Raise e, st') => (Raise e, st')
  end.

Notation "x <- m ;; k" := (bind m (fun x => k))
  (at level 100, m at next level, right associativity).
Notation "m ;;; k" := (bind m (fun _ => k))
  (at level 100, right associativity).

(** [try: body except subprocess.CalledProcessError as e: handler e]. *)
Definition try_except {A} (body : M A) (handler : CalledProcessError -> M A)
  : M A := fun st =>
  match body st with
  | (Raise (ProcessError e), st') => handler e st'
  | other => other
  end.

Definition log (ev : event) : M unit := fun st =>
  (Ret tt,
   {| environ := environ st; world := world st; trace := trace st ++ [ev] |}).

Definition get_environ : M (gmap Py.str Py.str) := fun st =>
  (Ret (environ st), st).

Definition put_environ (env : gmap Py.str Py.str) : M unit := fun st =>
  (Ret tt, {| environ := env; world := world st; trace := trace st |}).

(** [dict.clear] and [dict.update]. *)
Definition dict_clear (d : gmap Py.str Py.str) : gmap Py.str Py.str := ∅.
Definition dict_update (d other : gmap Py.str Py.str) : gmap Py.str Py.str :=
  other ∪ d.

Definition cache_dir : M Py.str :=
  env <- get_environ ;;
  match env !! Py.lit "VIRTUAL_ENV" with
  | None => raise (RuntimeError (Py.lit "Script must be run from virtualenv"))
  | Some venv_dir => ret (path_abspath (path_join venv_dir [os_pardir]))
  end.

Definition venv_cache_dir (reqs_hash : Py.str) : M Py.str :=
  d <- cache_dir ;;
  ret (path_join d [Py.lit "pylint_venvs"; reqs_hash]).

Definition bin_dir (venv : Py.str) : Py.str :=
  let bin_part :=
    if decide (os_name = Py.lit "nt") then Py.lit "Scripts" else Py.lit "bin" in
  path_join venv [bin_part].

(** The four assignments at the head of [venv_context]. *)
Definition activate (venv : Py.str) (env : gmap Py.str Py.str)
  : gmap Py.str Py.str :=
  let env := delete (Py.lit "PYTHON_HOME") env in
  let env := <[Py.lit "PIP_DISABLE_PIP_VERSION_CHECK" := Py.lit "1"]> env in
  let env := <[Py.lit "VIRTUAL_ENV" := venv]> env in
  <[Py.lit "PATH" :=
      Py.concat_str [bin_dir venv; os_pathsep;
                     default [] (env !! Py.lit "PATH")]]> env.

(** The table when the assignment of [VIRTUAL_ENV] raises: the two
    statements before it are done. *)
Definition half_activated (env : gmap Py.str Py.str) : gmap Py.str Py.str :=
  <[Py.lit "PIP_DISABLE_PIP_VERSION_CHECK" := Py.lit "1"]>
    (delete (Py.lit "PYTHON_HOME") env).

(** [with venv_context(venv): body].  The four assignments come before
    [try:].  [env['VIRTUAL_ENV'] = venv] raises when [os.environ] cannot
    take [venv]: the body is then not run and nothing is restored.  The
    value assigned to [PATH] is made of [venv], which has just been taken,
    of constants, and of a value read from [os.environ], which holds
    nothing it could not take: that assignment does not raise (limits of
    the operating system on the size of the environment aside).  Past the
    assignments, the generator's [finally] clause runs whether [body]
    returns or raises, and the exception, if any, goes on. *)
Definition venv_context {A} (venv : Py.str) (body : M A) : M A := fun st =>
  let to_restore := environ st in
  match Py.fs_error venv with
  | Some r =>
      (Raise (refusal_exn r),
       {| environ := half_activated (environ st);
          world := world st; trace := trace st |})
  | None =>
      match (put_environ (activate venv (environ st)) ;;; body) st with
      | (r, st') =>
          (r, {| environ := dict_update (dict_clear (environ st')) to_restore;
                 world := world st'; trace := trace st' |})
      end
  end.

Definition read_requirements (path : Py.str) : M (list Py.str) := fun st =>
  match log (EvOpen path) st with
  | (_, st') =>
      match fs_read (world st) path with
      | ReadText text => (Ret (Py.readlines text), st')
      | ReadOSError errno => (Raise (OSError errno), st')
      | ReadDecodeError => (Raise UnicodeDecodeError, st')
      | ReadRefused r => (Raise (refusal_exn r), st')
      end
  end.

(** [call] on a command with [capture_output] given and [check=True] (the
    default, never overridden): [subprocess.run] on the tuple; the child
    inherits [os.environ]; a non-zero exit status raises
    [CalledProcessError] carrying the argument tuple and, when captured,
    the output; an argument the operating system refuses raises before any
    process exists. *)
Definition call (command : list Py.str) (capture_output : bool) : M unit :=
  fun st =>
  let st' := {| environ := environ st;
                world := snd (spawn (world st) command (environ st));
                trace := trace st ++ [EvSpawn command (environ st) capture_output] |} in
  match fst (spawn (world st) command (environ st)) with
  | SpawnRefused r => (Raise (refusal_exn r), st')
  | SpawnOSError errno => (Raise (OSError errno), st')
  | Exited code out err =>
      if decide (code = 0%Z) then (Ret tt, st')
      else (Raise (ProcessError
                     {| returncode := code;
                        cmd := PyTuple command;
                        stdout := if capture_output then PyBytes out else PyNone;
                        stderr := if capture_output then PyBytes err else PyNone |}),
            st')
  end.

(** [sep.join(items)] on [bytes]: every item must be bytes-like, otherwise
    [TypeError]. *)
Fixpoint bytes_join (sep : Py.bytes) (items : list pyobj) : option Py.bytes :=
  match items with
  | [] => Some []
  | PyBytes b :: rest =>
      match rest with
      | [] => Some b
      | _ => (fun tl => b ++ sep ++ tl) <$> bytes_join sep rest
      end
  | _ :: _ => None
  end.

Definition NL : Py.bytes := [x0a].

Definition process_error_to_str (e : CalledProcessError) : result Py.str :=
  match bytes_join []
          [PyBytes (Py.blit "command:" ++ NL ++ NL); cmd e; PyBytes NL;
           PyBytes (Py.blit "stdout:" ++ NL ++ NL); stdout e; PyBytes NL;
           PyBytes (Py.blit "stderr:" ++ NL ++ NL); stderr e; PyBytes NL] with
  | None => Raise TypeError
  | Some b =>
      match Py.decode b with
      | None => Raise UnicodeDecodeError
      | Some s => Ret s
      end
  end.

Definition lift {A} (r : result A) : M A := fun st => (r, st).

Definition install_virtualenv (venv_dir : Py.str) (requirements : iterable)
  : M Z :=
  log (EvProvision venv_dir requirements) ;;;
  try_except
    (call [sys_executable; Py.lit "-mvirtualenv"; venv_dir] true ;;;
     venv_context venv_dir
       (call (Py.lit "pip" :: Py.lit "install" :: unpack requirements) true) ;;;
     ret 0%Z)
    (fun e =>
       s <- lift (process_error_to_str e) ;;
       log (EvStderr s) ;;;
       ret (returncode e)).

(** The parsed command line: [args.requirements] and [args.files]. *)
Record Namespace := {
  requirements : Py.str;
  files : list Py.str
}.

Definition path_exists (path : Py.str) : M bool := fun st =>
  match log (EvExists path) st with
  | (_, st') => (Ret (fs_exists (world st) path), st')
  end.

(** [hashlib.sha1('\n'.join(reqs).encode()).hexdigest()]. *)
Definition reqs_digest_input (reqs : list Py.str) : option Py.bytes :=
  Py.encode (Py.join [Py.LF] reqs).

Definition hash_requirements (reqs : list Py.str) : M Py.str :=
  match reqs_digest_input reqs with
  | None => raise UnicodeEncodeError
  | Some data => ret (SHA1.hexdigest data)
  end.

(** [main], from the parsed arguments on. *)
Definition main (args : Namespace) : M Z :=
  reqs <- read_requirements (requirements args) ;;
  reqs_hash <- hash_requirements reqs ;;
  venv_dir <- venv_cache_dir reqs_hash ;;
  present <- path_exists venv_dir ;;
  (if negb present
   then install_virtualenv venv_dir (IterStr (requirements args)) ;;; ret tt
   else ret tt) ;;;
  try_except
    (venv_context venv_dir (call (Py.lit "pylint" :: files args) false) ;;;
     ret 0%Z)
    (fun e => ret (returncode e)).

(** The commands the script runs, named for the statements below. *)
Definition create_cmd (venv_dir : Py.str) : list Py.str :=
  [sys_executable; Py.lit "-mvirtualenv"; venv_dir].

Definition pip_cmd (requirements : iterable) : list Py.str :=
  Py.lit "pip" :: Py.lit "install" :: unpack requirements.

Definition lint_cmd (files : list Py.str) : list Py.str :=
  Py.lit "pylint" :: files.

(** The [try] statement that ends [main]. *)
Definition run_lint (venv_dir : Py.str) (files : list Py.str) : M Z :=
  try_except
    (venv_context venv_dir (call (Py.lit "pylint" :: files) false) ;;;
     ret 0%Z)
    (fun e => ret (returncode e)).

(** What is expected of the external tools for a cache directory to be
    there after provisioning: a successful environment creation leaves a
    directory at its destination, and no command removes a path. *)
Definition creates_on_success : Prop :=
  forall w env dir out err,
    fst (spawn w (create_cmd dir) env) = Exited 0 out err ->
    fs_exists (snd (spawn w (create_cmd dir) env)) dir = true.

Definition never_removes : Prop :=
  forall w command env path,
    fs_exists w path = true ->
    fs_exists (snd (spawn w command env)) path = true.

(** The directory [main] looks for, given the active environment and the
    key: [<cache root>/pylint_venvs/<key>], the cache root being the parent
    of the active environment. *)
Definition cache_path (active key : Py.str) : Py.str :=
  path_join (path_abspath (path_join active [os_pardir]))
            [Py.lit "pylint_venvs"; key].

(** The state with some events added to the trace. *)
Definition logged (evs : list event) (st : state) : state :=
  {| environ := environ st; world := world st; trace := trace st ++ evs |}.

End Script.

(** ** A POSIX platform

    [os.path] on POSIX is [posixpath]; its functions are written out here
    so that the script can be run on concrete inputs.  The properties of
    the script below hold for every [Platform]. *)

Module Posix.

Definition sep : N := 47%N.

Definition startswith_sep (p : Py.str) : bool :=
  match p with
  | c :: _ => N.eqb c sep
  | [] => false
  end.

Definition endswith_sep (p : Py.str) : bool := startswith_sep (rev p).

(** One step of the loop of [posixpath.join]. *)
Definition join_step (path b : Py.str) : Py.str :=
  if startswith_sep b then b
  else if match path with [] => true | _ => endswith_sep path end
       then path ++ b
       else path ++ [sep] ++ b.

Definition join (a : Py.str) (p : list Py.str) : Py.str :=
  fold_left join_step p a.

Definition dot : Py.str := Py.lit ".".
Definition dotdot : Py.str := Py.lit "..".

(** The loop of [posixpath.normpath]; [new_comps] is kept last first. *)
Definition norm_step (initial_slashes : nat) (new_comps : list Py.str)
    (comp : Py.str) : list Py.str :=
  let last_is_dotdot :=
    match new_comps with
    | c :: _ => bool_decide (c = dotdot)
    | [] => false
    end in
  if bool_decide (comp = []) || bool_decide (comp = dot) then new_comps
  else if negb (bool_decide (comp = dotdot))
          || (Nat.eqb initial_slashes 0 && bool_decide (new_comps = []))
          || last_is_dotdot
       then comp :: new_comps
       else tail new_comps.

Definition normpath (path : Py.str) : Py.str :=
  match path with
  | [] => dot
  | _ =>
      let initial_slashes :=
        match path with
        | a :: b :: c :: _ =>
            if N.eqb a sep then
              if N.eqb b sep && negb (N.eqb c sep) then 2 else 1
            else 0
        | [a; b] => if N.eqb a sep then (if N.eqb b sep then 2 else 1) else 0
        | [a] => if N.eqb a sep then 1 else 0
        | [] => 0
        end in
      let comps := rev (fold_left (norm_step initial_slashes)
                                  (Py.split sep path) []) in
      let path' := repeat sep initial_slashes ++ Py.join [sep] comps in
      match path' with
      | [] => dot
      | _ => path'
      end
  end.

Definition abspath (cwd : Py.str) (path : Py.str) : Py.str :=
  if startswith_sep path then normpath path
  else normpath (join cwd [path]).

Definition platform (cwd executable : Py.str) : Platform := {|
  os_name := Py.lit "posix";
  os_pathsep := Py.lit ":";
  os_pardir := Py.lit "..";
  path_join := join;
  path_abspath := abspath cwd;
  sys_executable := executable
|}.

End Posix.

(** ** A simulated world

    The manifest store and the behaviour of the external tools are given;
    the state is the set of existing paths.  A successful
    [<python> -mvirtualenv <dir>] creates [<dir>]; a path or a command the
    operating system refuses is refused before the store or the tools are
    asked. *)

Definition sim_read (manifest : Py.str -> read_result) (path : Py.str)
  : read_result :=
  match Py.fs_error path with
  | Some r => ReadRefused r
  | None => manifest path
  end.

Definition sim_exists (paths : gset Py.str) (path : Py.str) : bool :=
  bool_decide (path ∈ paths) && bool_decide (Py.fs_error path = None).

Definition sim_spawn (tool : list Py.str -> spawn_result)
    (paths : gset Py.str) (command : list Py.str) : spawn_result * gset Py.str :=
  match Py.cmd_error command with
  | Some r => (SpawnRefused r, paths)
  | None =>
      (tool command,
       match command, tool command with
       | [_; opt; dir], Exited 0 _ _ =>
           if decide (opt = Py.lit "-mvirtualenv") then {[dir]} ∪ paths
           else paths
       | _, _ => paths
       end)
  end.

Lemma sim_read_refused (manifest : Py.str -> read_result) (path : Py.str)
    (r : Py.refusal) :
  Py.fs_error path = Some r -> sim_read manifest path = ReadRefused r.
Proof. unfold sim_read. now intros ->. Qed.

Lemma sim_exists_taken (paths : gset Py.str) (path : Py.str) :
  sim_exists paths path = true -> Py.fs_error path = None.
Proof.
  unfold sim_exists. intros [_ H]%andb_prop.
  now apply bool_decide_eq_true in H.
Qed.

Lemma sim_spawn_refused (tool : list Py.str -> spawn_result)
    (paths : gset Py.str) (command : list Py.str) (r : Py.refusal) :
  Py.cmd_error command = Some r ->
  sim_spawn tool paths command = (SpawnRefused r, paths).
Proof. unfold sim_spawn. now intros ->. Qed.

Definition sim_world (manifest : Py.str -> read_result)
    (tool : list Py.str -> spawn_result) : World := {|
  wstate := gset Py.str;
  fs_read := fun _ path => sim_read manifest path;
  fs_exists := sim_exists;
  spawn := fun paths command _ => sim_spawn tool paths command;
  fs_read_refused := fun _ path => sim_read_refused manifest path;
  fs_exists_taken := sim_exists_taken;
  spawn_refused := fun paths command _ => sim_spawn_refused tool paths command
|}.

(** The state in which a run starts: an environment, the existing paths,
    and nothing done yet. *)
Definition sim_start (manifest : Py.str -> read_result)
    (tool : list Py.str -> spawn_result)
    (env : gmap Py.str Py.str) (paths : gset Py.str)
  : @state (sim_world manifest tool) :=
  @Build_state (sim_world manifest tool) env paths [].

(** ** Observations on a trace *)

(** The entries into [install_virtualenv], with their arguments. *)
Definition provision_calls (tr : list event) : list (Py.str * iterable) :=
  flat_map (fun ev => match ev with
                      | EvProvision dir reqs => [(dir, reqs)]
                      | _ => []
                      end) tr.

(** The commands [subprocess.run] was called on, in order. *)
Definition spawned (tr : list event) : list (list Py.str) :=
  flat_map (fun ev => match ev with
                      | EvSpawn command _ _ => [command]
                      | _ => []
                      end) tr.

(** What was printed to the error stream. *)
Definition printed (tr : list event) : list Py.str :=
  flat_map (fun ev => match ev with
                      | EvStderr text => [text]
                      | _ => []
                      end) tr.

(** The first entry of a search path. *)
Definition first_entry (sep : N) (path : Py.str) : option Py.str :=
  head (Py.split sep path).

(** ** A concrete run

    The hook as pre-commit starts it on POSIX: the manifest
    [requirements.txt] is the single line [pylint==3.0.0], the hook's own
    environment is active, and one file is to be linted. *)

Module Scenario.

Definition platform : Platform :=
  Posix.platform (Py.lit "/work") (Py.lit "/usr/bin/python3").

Definition one_line : Py.str := Py.lit "pylint==3.0.0" ++ [Py.LF].

Definition two_lines : Py.str :=
  Py.lit "pylint==3.0.0" ++ [Py.LF] ++ Py.lit "astroid==3.0.1" ++ [Py.LF].

(** A file system with one manifest; any other path does not exist
    ([ENOENT]). *)
Definition manifest (text : Py.str) (path : Py.str) : read_result :=
  if decide (path = Py.lit "requirements.txt") then ReadText text
  else ReadOSError 2.

(** Tools that exit with the given status: the environment creation, the
    installer and the linter. *)
Definition tools (create pip lint : Z) (command : list Py.str) : spawn_result :=
  match command with
  | prog :: opt :: _ =>
      if decide (opt = Py.lit "-mvirtualenv") then
        Exited create (Py.blit "created") (Py.blit "virtualenv: failed")
      else if decide (prog = Py.lit "pip") then
        Exited pip (Py.blit "Collecting") (Py.blit "pip: failed")
      else Exited lint [] []
  | _ => Exited lint [] []
  end.

Definition env0 : gmap Py.str Py.str :=
  <[Py.lit "VIRTUAL_ENV" := Py.lit "/home/u/.cache/pre-commit/repo/py_env"]>
    (<[Py.lit "PATH" := Py.lit "/usr/bin:/bin"]>
       (<[Py.lit "PYTHON_HOME" := Py.lit "/opt/python"]>
          (<[Py.lit "HOME" := Py.lit "/home/u"]> ∅))).

Definition args : Namespace :=
  {| requirements := Py.lit "requirements.txt"; files := [Py.lit "a.py"] |}.

(** The cache directory of [one_line]. *)
Definition venv : Py.str :=
  Py.lit "/home/u/.cache/pre-commit/repo/pylint_venvs/66711a8dedd2bdf222feaec9b22f6bb320426413".

(** What is hashed for [one_line]. *)
Definition one_line_octets : Py.bytes := Py.blit "pylint==3.0.0" ++ [x0a].

End Scenario.

(** ** Manifests that differ in line order only

    A family of manifests over the two lines [a] and [b]: one pair of lines
    for every bit, in the order the bit says. *)

Module Reorder.

Definition line_a : Py.str := [97%N; Py.LF].
Definition line_b : Py.str := [98%N; Py.LF].

Definition block (bit : bool) : list Py.str :=
  if bit then [line_b; line_a] else [line_a; line_b].

Definition lines (bits : list bool) : list Py.str := flat_map block bits.

Definition text (bits : list bool) : Py.str := concat (lines bits).

(** What is hashed for the manifest [text bits]. *)
Definition octets (bits : list bool) : Py.bytes :=
  map Py.byte_of_N (Py.join [Py.LF] (lines bits)).

(** The first [n] octets of a sequence, as a vector. *)
Fixpoint prefix_vec (n : nat) (l : Py.bytes) : vec byte n :=
  match n with
  | O => [#]
  | S n' =>
      match l with
      | [] => x00 ::: prefix_vec n' []
      | b :: l' => b ::: prefix_vec n' l'
      end
  end.

(** The digest of the manifest that 161 bits name. *)
Definition fingerprint (v : vec bool 161) : vec byte 20 :=
  prefix_vec 20 (SHA1.digest (octets (vec_to_list v))).

End Reorder.

(** A path component that [normpath] keeps: not empty, without separator,
    and neither [.] nor [..]. *)
Definition plain (comp : list N) : Prop :=
  comp <> [] /\ ~ In Posix.sep comp /\ comp <> Posix.dot /\ comp <> Posix.dotdot.

(** A lower-case hexadecimal digit. *)
Definition is_hex_digit (c : N) : bool :=
  ((48 <=? c) && (c <=? 57) || (97 <=? c) && (c <=? 102))%N.

(** A code point that is not a surrogate. *)
Definition is_scalar (c : N) : bool :=
  ((c <? 0xD800) || (0xE000 <=? c) && (c <? 0x110000))%N.

(** * Properties *)

(** ** SHA-1 test vectors *)

Example sha1_empty :
  SHA1.hexdigest [] = Py.lit "da39a3ee5e6b4b0d3255bfef95601890afd80709".
Proof. vm_compute. reflexivity. Qed.

Example sha1_abc :
  SHA1.hexdigest (Py.blit "abc") =
  Py.lit "a9993e364706816aba3e25717850c26c9cd0d89d".
Proof. vm_compute. reflexivity. Qed.

Example sha1_fox :
  SHA1.hexdigest (Py.blit "The quick brown fox jumps over the lazy dog") =
  Py.lit "2fd4e1c67a2d28fced849ee1bb76e7391b93eb12".
Proof. vm_compute. reflexivity. Qed.

Example sha1_two_blocks :
  SHA1.hexdigest
    (Py.blit "abcdbcdecdefdefgefghfghighijhijkijkljklmklmnlmnomnopnopq") =
  Py.lit "84983e441c3bd26ebaae4aa1f95129e5e54670f1".
Proof. vm_compute. reflexivity. Qed.

Example sha1_padding_boundaries :
  SHA1.hexdigest (repeat "x"%byte 55) =
    Py.lit "cef734ba81a024479e09eb5a75b6ddae62e6abf1" /\
  SHA1.hexdigest (repeat "x"%byte 56) =
    Py.lit "901305367c259952f4e7af8323f480d59f81335b" /\
  SHA1.hexdigest (repeat "x"%byte 64) =
    Py.lit "bb2fa3ee7afb9f54c6dfb5d021f14b1ffe40c163" /\
  SHA1.hexdigest (repeat "x"%byte 119) =
    Py.lit "4300320394f7ee239bcdce7d3b8bcee173a0cd5c".
Proof. vm_compute. repeat split. Qed.


(** ** The library functions on concrete inputs *)

Example readlines_keeps_terminators :
  Py.readlines (Py.lit "ab" ++ [Py.LF; Py.LF] ++ Py.lit "c") =
  [Py.lit "ab" ++ [Py.LF]; [Py.LF]; Py.lit "c"].
Proof. reflexivity. Qed.

Example encode_non_ascii :
  Py.encode [0xE9; 0x20AC; 0x1F600]%N =
    Some ["195"; "169"; "226"; "130"; "172"; "240"; "159"; "152"; "128"]%byte /\
  Py.encode [0xD800]%N = None.
Proof. split; reflexivity. Qed.

Example posix_join :
  Posix.join (Py.lit "/a") [Py.lit "b"; Py.lit "c/"; Py.lit "d"] =
    Py.lit "/a/b/c/d" /\
  Posix.join (Py.lit "/a") [Py.lit "/b"] = Py.lit "/b".
Proof. split; reflexivity. Qed.

Example posix_normpath :
  Posix.normpath (Py.lit "/home/u/py_env/..") = Py.lit "/home/u" /\
  Posix.normpath (Py.lit "//a/./b/../../../c/") = Py.lit "//c" /\
  Posix.normpath (Py.lit "a/../../b") = Py.lit "../b" /\
  Posix.normpath (Py.lit "///a") = Py.lit "/a" /\
  Posix.normpath [] = Py.lit ".".
Proof. vm_compute. repeat split. Qed.

Example posix_abspath_relative :
  Posix.abspath (Py.lit "/work") (Py.lit "env/..") = Py.lit "/work".
Proof. reflexivity. Qed.

(** ** Strings *)

Module PyFacts.
Import Py.

Lemma readlines_nil (text : list N) : readlines text = [] -> text = [].
Proof.
  destruct text as [|c rest]; [reflexivity|]. simpl.
  destruct (N.eqb c LF); [discriminate|].
  destruct (readlines rest); discriminate.
Qed.

(** The lines keep their terminators: put end to end they are the text. *)
Lemma concat_readlines (text : list N) : concat (readlines text) = text.
Proof.
  induction text as [|c rest IH]; [reflexivity|]. simpl.
  destruct (N.eqb_spec c LF) as [->|Hc].
  - simpl. now rewrite IH.
  - destruct (readlines rest) as [|line lines] eqn:E.
    + apply readlines_nil in E. now subst.
    + simpl in *. now rewrite IH.
Qed.

Lemma join_cons_char (sep : list N) c line lines :
  join sep ((c :: line) :: lines) = c :: join sep (line :: lines).
Proof. destruct lines; reflexivity. Qed.

Lemma join_cons_cons (sep : list N) x y rest :
  join sep (x :: y :: rest) = x ++ sep ++ join sep (y :: rest).
Proof. reflexivity. Qed.

Lemma length_join (sep : list N) (items : list (list N)) :
  length (join sep items) =
  (length (concat items) + length sep * (length items - 1))%nat.
Proof.
  induction items as [|x [|y rest] IH].
  - simpl. lia.
  - simpl. rewrite app_nil_r. lia.
  - rewrite join_cons_cons, !length_app, IH. simpl concat.
    rewrite !length_app. simpl length. lia.
Qed.

(** Joining the lines with a newline gives the text back exactly when there
    is at most one line. *)
Lemma join_readlines_iff (text : list N) :
  join [LF] (readlines text) = text <-> (length (readlines text) <= 1)%nat.
Proof.
  split.
  - intros H. apply (f_equal (@length N)) in H.
    rewrite length_join, concat_readlines in H. simpl in H. lia.
  - intros H. rewrite <- (concat_readlines text) at 2.
    destruct (readlines text) as [|x [|y rest]]; simpl in *;
      [reflexivity | now rewrite app_nil_r | lia].
Qed.

(** The text is recovered from the joined lines by dropping the character
    that follows each line terminator. *)
Lemma undouble_join_readlines (text : list N) :
  undouble (join [LF] (readlines text)) = text.
Proof.
  induction text as [|c rest IH]; [reflexivity|].
  cbn [readlines]. destruct (N.eqb_spec c LF) as [->|Hc].
  - destruct (readlines rest) as [|line lines] eqn:E.
    + apply readlines_nil in E. now subst.
    + rewrite join_cons_cons. simpl. now rewrite <- IH.
  - destruct (readlines rest) as [|line lines] eqn:E.
    + apply readlines_nil in E. subst. simpl.
      destruct (N.eqb_spec c LF); [contradiction|reflexivity].
    + rewrite join_cons_char. cbn [undouble].
      destruct (N.eqb_spec c LF); [contradiction|]. now rewrite IH.
Qed.

Lemma join_readlines_inj (t1 t2 : list N) :
  join [LF] (readlines t1) = join [LF] (readlines t2) -> t1 = t2.
Proof.
  intros H. apply (f_equal undouble) in H.
  now rewrite !undouble_join_readlines in H.
Qed.

Lemma to_N_byte_of_N (n : N) : (n < 256)%N -> Byte.to_N (byte_of_N n) = n.
Proof.
  intros Hn. unfold byte_of_N. rewrite N.mod_small by exact Hn.
  destruct (Byte.of_N n) as [b|] eqn:E.
  - now apply Byte.to_of_N.
  - apply Byte.of_N_None_iff in E. lia.
Qed.

Ltac Zify.zify_post_hook ::= Z.to_euclidean_division_equations.

Ltac cmp_cases :=
  repeat match goal with
  | |- context [N.ltb ?a ?b] => destruct (N.ltb_spec a b); try lia
  | |- context [N.leb ?a ?b] => destruct (N.leb_spec a b); try lia
  end.

Lemma decode_cons_utf8_char (c : N) (b rest : list byte) :
  utf8_char c = Some b ->
  decode (b ++ rest) = cons c <$> decode rest.
Proof.
  unfold utf8_char.
  repeat match goal with
  | |- context [N.ltb ?a ?b] => destruct (N.ltb_spec a b)
  | |- context [N.leb ?a ?b] => destruct (N.leb_spec a b)
  end; simpl andb; intros [= <-]; try discriminate;
  cbn [app decode]; rewrite !to_N_byte_of_N by lia;
  unfold is_cont; cmp_cases; cbn [andb negb]; try (do 2 f_equal; lia).
Qed.

Lemma decode_encode (s : list N) (b : list byte) :
  encode s = Some b -> decode b = Some s.
Proof.
  revert b. induction s as [|c rest IH]; intros b; simpl.
  - now intros [= <-].
  - destruct (utf8_char c) as [bc|] eqn:Ec; [|discriminate].
    destruct (encode rest) as [br|] eqn:Er; [|discriminate].
    intros [= <-]. rewrite (decode_cons_utf8_char _ _ _ Ec), (IH _ eq_refl).
    reflexivity.
Qed.

Lemma encode_inj (s1 s2 : list N) (b : list byte) :
  encode s1 = Some b -> encode s2 = Some b -> s1 = s2.
Proof.
  intros H1%decode_encode H2%decode_encode. congruence.
Qed.

Lemma encode_ascii (s : list N) :
  Forall (fun c => (c < 128)%N) s -> encode s = Some (map byte_of_N s).
Proof.
  induction 1 as [|c rest Hc _ IH]; [reflexivity|].
  simpl. rewrite IH. unfold utf8_char.
  destruct (N.ltb_spec c 128); [reflexivity | lia].
Qed.

End PyFacts.

(** ** The script *)

Section ScriptFacts.
Context {P : Platform} {W : World}.
Implicit Types (st : state) (env : gmap (list N) (list N)) (venv : list N).

Lemma restore_eq env to_restore :
  dict_update (dict_clear env) to_restore = to_restore.
Proof. unfold dict_update, dict_clear. apply (right_id ∅ (∪)). Qed.

Lemma venv_context_eq {A} venv (body : M A) st :
  Py.fs_error venv = None ->
  venv_context venv body st =
  let r := body {| environ := activate venv (environ st);
                   world := world st; trace := trace st |} in
  (fst r, {| environ := environ st; world := world (snd r);
             trace := trace (snd r) |}).
Proof.
  intros Hvenv. unfold venv_context, bind, put_environ. rewrite Hvenv. simpl.
  destruct (body _) as [r st']. simpl. now rewrite restore_eq.
Qed.

Lemma venv_context_refused {A} venv (body : M A) st r :
  Py.fs_error venv = Some r ->
  venv_context venv body st =
  (Raise (refusal_exn r),
   {| environ := half_activated (environ st);
      world := world st; trace := trace st |}).
Proof. intros Hvenv. unfold venv_context. now rewrite Hvenv. Qed.

Lemma cmd_error_refuses (command : list (list N)) (arg : list N) r :
  In arg command -> Py.fs_error arg = Some r ->
  exists r', Py.cmd_error command = Some r'.
Proof.
  induction command as [|a rest IH]; intros Hin Harg; [destruct Hin|].
  cbn [Py.cmd_error]. destruct (Py.fs_error a) as [ra|] eqn:Ea; [now exists ra|].
  destruct Hin as [->|Hin]; [congruence|]. now apply IH.
Qed.

(** A command that was not refused has no argument the operating system
    refuses. *)
Lemma spawn_taken (w : wstate) (command : list (list N)) env (arg : list N) :
  (forall r, fst (spawn w command env) <> SpawnRefused r) ->
  In arg command -> Py.fs_error arg = None.
Proof.
  intros Hrun Hin. destruct (Py.fs_error arg) as [r|] eqn:Earg; [|reflexivity].
  destruct (cmd_error_refuses _ _ _ Hin Earg) as [r' Hr'].
  exfalso. apply (Hrun r'). now rewrite (spawn_refused _ _ _ _ Hr').
Qed.

Lemma created_taken (w : wstate) venv env code out err :
  fst (spawn w (create_cmd venv) env) = Exited code out err ->
  Py.fs_error venv = None.
Proof.
  intros Hrun. apply (spawn_taken w (create_cmd venv) env).
  - intros r. rewrite Hrun. discriminate.
  - unfold create_cmd. cbn. tauto.
Qed.

Lemma activate_lookup venv env k :
  activate venv env !! k =
  if decide (k = Py.lit "PATH") then
    Some (bin_dir venv ++ os_pathsep ++ default [] (env !! Py.lit "PATH"))
  else if decide (k = Py.lit "VIRTUAL_ENV") then Some venv
  else if decide (k = Py.lit "PIP_DISABLE_PIP_VERSION_CHECK") then Some (Py.lit "1")
  else if decide (k = Py.lit "PYTHON_HOME") then None
  else env !! k.
Proof.
  unfold activate.
  repeat case_decide; subst; simplify_map_eq; try reflexivity.
Qed.

Lemma process_error_to_str_tuple e items :
  cmd e = PyTuple items -> process_error_to_str e = Raise TypeError.
Proof. unfold process_error_to_str. intros ->. reflexivity. Qed.

Lemma call_eq command capture st :
  call command capture st =
  let r := spawn (world st) command (environ st) in
  let st' := {| environ := environ st; world := snd r;
                trace := trace st ++ [EvSpawn command (environ st) capture] |} in
  (match fst r with
   | SpawnRefused r => Raise (refusal_exn r)
   | SpawnOSError errno => Raise (OSError errno)
   | Exited code out err =>
       if decide (code = 0%Z) then Ret tt
       else Raise (ProcessError
                     {| returncode := code; cmd := PyTuple command;
                        stdout := if capture then PyBytes out else PyNone;
                        stderr := if capture then PyBytes err else PyNone |})
   end, st').
Proof.
  unfold call. simpl.
  destruct (fst _) as [code out err|errno|r]; [|reflexivity..].
  destruct (decide _); reflexivity.
Qed.

(** Every way [install_virtualenv] can go. *)
Lemma install_virtualenv_eq venv reqs st :
  install_virtualenv venv reqs st =
  let r1 := spawn (world st) (create_cmd venv) (environ st) in
  let tr1 := trace st ++ [EvProvision venv reqs;
                          EvSpawn (create_cmd venv) (environ st) true] in
  let st1 := {| environ := environ st; world := snd r1; trace := tr1 |} in
  match fst r1 with
  | SpawnRefused r => (Raise (refusal_exn r), st1)
  | SpawnOSError errno => (Raise (OSError errno), st1)
  | Exited code _ _ =>
      if decide (code = 0%Z) then
        let env' := activate venv (environ st) in
        let r2 := spawn (snd r1) (pip_cmd reqs) env' in
        let st2 := {| environ := environ st; world := snd r2;
                      trace := tr1 ++ [EvSpawn (pip_cmd reqs) env' true] |} in
        match fst r2 with
        | SpawnRefused r => (Raise (refusal_exn r), st2)
        | SpawnOSError errno => (Raise (OSError errno), st2)
        | Exited code' _ _ =>
            if decide (code' = 0%Z) then (Ret 0%Z, st2)
            else (Raise TypeError, st2)
        end
      else (Raise TypeError, st1)
  end.
Proof.
  unfold install_virtualenv, try_except, bind at 1 2, log. cbn [fst snd].
  unfold bind at 1. rewrite call_eq. cbn [fst snd environ world trace].
  rewrite <- app_assoc. cbn [app].
  fold (create_cmd venv).
  destruct (fst (spawn (world st) (create_cmd venv) (environ st)))
    as [code out err|errno|r] eqn:E1;
    [|reflexivity|destruct r; reflexivity].
  destruct (decide (code = 0%Z)) as [->|Hc]; [|reflexivity].
  unfold bind at 1.
  rewrite (venv_context_eq _ _ _ (created_taken _ _ _ _ _ _ E1)), call_eq.
  cbn [fst snd environ world trace]. fold (pip_cmd reqs).
  destruct (fst (spawn _ (pip_cmd reqs) _)) as [code' out' err'|errno'|r'] eqn:E2;
    [|reflexivity|destruct r'; reflexivity].
  destruct (decide (code' = 0%Z)) as [->|Hc']; reflexivity.
Qed.


Lemma run_lint_eq venv files st :
  Py.fs_error venv = None ->
  run_lint venv files st =
  let env' := activate venv (environ st) in
  let r := spawn (world st) (lint_cmd files) env' in
  (match fst r with
   | SpawnRefused r => Raise (refusal_exn r)
   | SpawnOSError errno => Raise (OSError errno)
   | Exited code _ _ => Ret code
   end,
   {| environ := environ st; world := snd r;
      trace := trace st ++ [EvSpawn (lint_cmd files) env' false] |}).
Proof.
  intros Hvenv. unfold run_lint, try_except, bind.
  rewrite (venv_context_eq _ _ _ Hvenv), call_eq.
  cbn [fst snd environ world trace]. fold (lint_cmd files).
  destruct (fst (spawn _ _ _)) as [code out err|errno|r];
    [|reflexivity|destruct r; reflexivity].
  destruct (decide (code = 0%Z)) as [->|Hc]; reflexivity.
Qed.

Lemma run_lint_refused venv files st r :
  Py.fs_error venv = Some r ->
  run_lint venv files st =
  (Raise (refusal_exn r),
   {| environ := half_activated (environ st);
      world := world st; trace := trace st |}).
Proof.
  intros Hvenv. unfold run_lint, try_except, bind.
  rewrite (venv_context_refused _ _ _ _ Hvenv). now destruct r.
Qed.

(** Every way [main] can go. *)
Lemma main_eq args st :
  main args st =
  let st0 := logged [EvOpen (requirements args)] st in
  match fs_read (world st) (requirements args) with
  | ReadOSError errno => (Raise (OSError errno), st0)
  | ReadDecodeError => (Raise UnicodeDecodeError, st0)
  | ReadRefused r => (Raise (refusal_exn r), st0)
  | ReadText text =>
      match reqs_digest_input (Py.readlines text) with
      | None => (Raise UnicodeEncodeError, st0)
      | Some data =>
          match environ st !! Py.lit "VIRTUAL_ENV" with
          | None =>
              (Raise (RuntimeError (Py.lit "Script must be run from virtualenv")),
               st0)
          | Some active =>
              let dir := cache_path active (SHA1.hexdigest data) in
              let st1 := logged [EvOpen (requirements args); EvExists dir] st in
              if fs_exists (world st) dir then run_lint dir (files args) st1
              else
                match install_virtualenv dir (IterStr (requirements args)) st1 with
                | (Ret _, st2) => run_lint dir (files args) st2
                | (Raise e, st2) => (Raise e, st2)
                end
          end
      end
  end.
Proof.
  unfold main, bind at 1, read_requirements, log, logged. cbn [fst snd].
  destruct (fs_read _ _) as [text|errno| |[|]]; try reflexivity.
  unfold bind at 1, hash_requirements.
  destruct (reqs_digest_input _) as [data|]; [|reflexivity].
  unfold ret at 1, bind at 1, venv_cache_dir, bind at 1, cache_dir, bind at 1,
    get_environ.
  cbn [fst snd environ world trace].
  destruct (_ !! _) as [active|]; [|reflexivity].
  unfold ret at 1 2, bind at 1, path_exists, log. cbn [fst snd environ world trace].
  rewrite <- app_assoc. cbn [app]. fold (cache_path active (SHA1.hexdigest data)).
  unfold bind at 1.
  destruct (fs_exists _ _); cbn [negb].
  - reflexivity.
  - unfold bind at 1.
    destruct (install_virtualenv _ _ _) as [[z|e] st2]; reflexivity.
Qed.


Lemma provision_calls_app (tr1 tr2 : list event) :
  provision_calls (tr1 ++ tr2) = provision_calls tr1 ++ provision_calls tr2.
Proof. apply flat_map_app. Qed.

Lemma install_virtualenv_calls venv reqs st :
  provision_calls (trace (snd (install_virtualenv venv reqs st))) =
  provision_calls (trace st) ++ [(venv, reqs)].
Proof.
  rewrite install_virtualenv_eq. cbv zeta.
  repeat (destruct (fst (spawn _ _ _)) || destruct (decide _));
    cbn [snd trace]; rewrite ?provision_calls_app;
    cbn; now rewrite ?app_nil_r.
Qed.

Lemma run_lint_calls venv files st :
  provision_calls (trace (snd (run_lint venv files st))) =
  provision_calls (trace st).
Proof.
  destruct (Py.fs_error venv) as [r|] eqn:Hvenv.
  - now rewrite (run_lint_refused _ _ _ _ Hvenv).
  - rewrite (run_lint_eq _ _ _ Hvenv). cbn. rewrite provision_calls_app. cbn.
    now rewrite app_nil_r.
Qed.

(** Under [creates_on_success] and [never_removes], a provisioning that
    returns leaves the directory in place. *)
Lemma install_virtualenv_creates venv reqs st z st' :
  creates_on_success -> never_removes ->
  install_virtualenv venv reqs st = (Ret z, st') ->
  z = 0%Z /\ fs_exists (world st') venv = true.
Proof.
  intros Hcreate Hkeep. rewrite install_virtualenv_eq. cbv zeta.
  destruct (fst (spawn (world st) _ _)) as [code out err|errno|r] eqn:E1;
    [|discriminate..].
  destruct (decide (code = 0%Z)) as [->|Hc]; [|discriminate].
  destruct (fst (spawn (snd _) _ _)) as [code' out' err'|errno'|r'] eqn:E2;
    [|discriminate..].
  destruct (decide (code' = 0%Z)) as [->|Hc']; [|discriminate].
  intros [= <- <-]. split; [reflexivity|]. cbn [world].
  apply Hkeep. eapply Hcreate. exact E1.
Qed.

Lemma run_lint_world venv files st path :
  never_removes ->
  fs_exists (world st) path = true ->
  fs_exists (world (snd (run_lint venv files st))) path = true.
Proof.
  intros Hkeep Hp. destruct (Py.fs_error venv) as [r|] eqn:Hvenv.
  - now rewrite (run_lint_refused _ _ _ _ Hvenv).
  - rewrite (run_lint_eq _ _ _ Hvenv). cbn [snd world]. now apply Hkeep.
Qed.

(** The events [run_lint] and [install_virtualenv] add come after those
    that were there. *)
Lemma run_lint_trace venv files st :
  exists evs, trace (snd (run_lint venv files st)) = trace st ++ evs.
Proof.
  destruct (Py.fs_error venv) as [r|] eqn:Hvenv.
  - rewrite (run_lint_refused _ _ _ _ Hvenv). exists []. cbn.
    now rewrite app_nil_r.
  - rewrite (run_lint_eq _ _ _ Hvenv). cbn. eexists. reflexivity.
Qed.

Lemma install_virtualenv_trace venv reqs st :
  exists evs, trace (snd (install_virtualenv venv reqs st)) = trace st ++ evs.
Proof.
  rewrite install_virtualenv_eq. cbv zeta.
  repeat (destruct (fst (spawn _ _ _)) || destruct (decide _));
    cbn [snd trace]; rewrite <- ?app_assoc; eexists; reflexivity.
Qed.

(** What [main] does once the manifest is read and hashed and an
    environment is active begins with the test of the cache directory. *)
Lemma main_trace args st text data active :
  fs_read (world st) (requirements args) = ReadText text ->
  reqs_digest_input (Py.readlines text) = Some data ->
  environ st !! Py.lit "VIRTUAL_ENV" = Some active ->
  exists evs,
    trace (snd (main args st)) =
    trace st ++ EvOpen (requirements args)
             :: EvExists (cache_path active (SHA1.hexdigest data)) :: evs.
Proof.
  intros Hread Hdata Hactive. rewrite main_eq. cbv zeta.
  rewrite Hread, Hdata, Hactive.
  set (dir := cache_path active (SHA1.hexdigest data)).
  set (st1 := logged [EvOpen (requirements args); EvExists dir] st).
  assert (Hlint : forall st2 evs2,
             trace st2 = trace st1 ++ evs2 ->
             exists evs,
               trace (snd (run_lint dir (files args) st2)) =
               trace st ++ EvOpen (requirements args) :: EvExists dir :: evs).
  { intros st2 evs2 H2. destruct (run_lint_trace dir (files args) st2) as [evs ->].
    rewrite H2. unfold st1, logged. cbn [trace]. rewrite <- !app_assoc.
    eexists. reflexivity. }
  destruct (fs_exists (world st) dir).
  - apply (Hlint st1 []). now rewrite app_nil_r.
  - destruct (install_virtualenv_trace dir (IterStr (requirements args)) st1)
      as [evs2 H2].
    destruct (install_virtualenv _ _ _) as [[z|e] st2]; cbn [snd] in *.
    + now apply (Hlint st2 evs2).
    + rewrite H2. unfold st1, logged. cbn [trace]. rewrite <- !app_assoc.
      eexists. reflexivity.
Qed.

(** The first field of a string cut at a character does not hold the
    character. *)
Lemma first_entry_no_sep (c : N) (s f : list N) :
  first_entry c s = Some f -> ~ In c f.
Proof.
  unfold first_entry. revert f. induction s as [|a s IH]; intros f.
  - cbn. intros [= <-] [].
  - cbn [Py.split]. destruct (N.eqb_spec a c) as [->|Hac].
    + cbn. intros [= <-] [].
    + destruct (Py.split c s) as [|field fields].
      * cbn. intros [= <-] [H|[]]. now apply Hac.
      * cbn. intros [= <-] [H|H]; [now apply Hac|].
        now apply (IH field).
Qed.

Lemma first_entry_app (c : N) (x rest : list N) :
  ~ In c x -> first_entry c (x ++ c :: rest) = Some x.
Proof.
  unfold first_entry. induction x as [|a x IH]; intros Hx.
  - cbn. now rewrite N.eqb_refl.
  - cbn [app Py.split]. destruct (N.eqb_spec a c) as [->|Hac].
    + exfalso. apply Hx. now left.
    + assert (Hx' : ~ In c x) by (intros H; apply Hx; now right).
      specialize (IH Hx').
      destruct (Py.split c (x ++ c :: rest)) as [|field fields];
        [discriminate|]. cbn in *. congruence.
Qed.


(** C8, as the script has it. Entering the scoped activation with a path
    [os.environ] takes changes four variables and no other: [PYTHON_HOME]
    is removed, the version-check flag is set, the active-environment
    marker is the given path, and the search path is the environment's
    executable directory ([Scripts] under the path on Windows, [bin]
    elsewhere), the path separator and the prior search path (empty when
    there was none).  [PYTHONHOME], the variable the interpreter reads for
    its home, is not among the four: it is inside the scope what it was
    before. *)
Theorem venv_context_mutates_four venv st :
  Py.fs_error venv = None ->
  let bin := path_join venv [if decide (os_name = Py.lit "nt")
                             then Py.lit "Scripts" else Py.lit "bin"] in
  exists inside,
    fst (venv_context venv get_environ st) = Ret inside /\
    inside !! Py.lit "PYTHON_HOME" = None /\
    inside !! Py.lit "PYTHONHOME" = environ st !! Py.lit "PYTHONHOME" /\
    inside !! Py.lit "PIP_DISABLE_PIP_VERSION_CHECK" = Some (Py.lit "1") /\
    inside !! Py.lit "VIRTUAL_ENV" = Some venv /\
    inside !! Py.lit "PATH" =
      Some (bin ++ os_pathsep ++ default [] (environ st !! Py.lit "PATH")) /\
    (forall k : list N,
       ~ In k [Py.lit "PYTHON_HOME"; Py.lit "PIP_DISABLE_PIP_VERSION_CHECK";
               Py.lit "VIRTUAL_ENV"; Py.lit "PATH"] ->
       inside !! k = environ st !! k).
Proof.
  intros Hvenv. cbv zeta. exists (activate venv (environ st)).
  rewrite (venv_context_eq _ _ _ Hvenv). cbn [fst get_environ environ].
  split; [reflexivity|].
  rewrite !activate_lookup. repeat split.
  intros k Hk. rewrite activate_lookup.
  repeat case_decide; subst; try reflexivity;
    exfalso; apply Hk; cbn; tauto.
Qed.

(** C10, as the script has it. When the environment has been created, the
    install command is started inside the scoped activation of the new
    environment: the child inherits an environment whose active-environment
    marker is the new path and whose search path is the new executable
    directory ([Scripts] under the path on Windows, [bin] elsewhere), the
    separator and the caller's search path.  That directory is the first
    entry of the search path exactly when the separator does not occur in
    it. *)
Theorem install_runs_pip_in_activated_env venv reqs st out err :
  fst (spawn (world st) (create_cmd venv) (environ st)) = Exited 0 out err ->
  let bin := path_join venv [if decide (os_name = Py.lit "nt")
                             then Py.lit "Scripts" else Py.lit "bin"] in
  let search := bin ++ os_pathsep
                ++ default [] (environ st !! Py.lit "PATH") in
  exists inside,
    trace (snd (install_virtualenv venv reqs st)) =
      trace st ++ [EvProvision venv reqs;
                   EvSpawn (create_cmd venv) (environ st) true;
                   EvSpawn (pip_cmd reqs) inside true] /\
    inside !! Py.lit "VIRTUAL_ENV" = Some venv /\
    inside !! Py.lit "PATH" = Some search /\
    (forall c, os_pathsep = [c] ->
               first_entry c search = Some bin <-> ~ In c bin).
Proof.
  intros Hcreate. cbv zeta. exists (activate venv (environ st)).
  rewrite install_virtualenv_eq. cbv zeta.
  rewrite Hcreate. cbn [decide]. rewrite decide_True by reflexivity.
  rewrite !activate_lookup.
  split; [|split; [reflexivity|split; [reflexivity|]]].
  - repeat (destruct (fst (spawn _ _ _)) || destruct (decide _));
      cbn [snd trace]; now rewrite <- app_assoc.
  - intros c ->. cbn [app].
    split; [apply first_entry_no_sep | apply first_entry_app].
Qed.

(** C6. With the manifest read and hashed to a key and an environment
    active: when the cache directory of the key exists the provisioner is
    not entered; when it does not exist the provisioner is entered exactly
    once, for that directory; and then, the tools creating on success and
    removing nothing, the directory exists once provisioning has returned,
    and at the end of the run when the run returns. *)
Theorem provision_only_on_cache_miss args st text data active :
  fs_read (world st) (requirements args) = ReadText text ->
  reqs_digest_input (Py.readlines text) = Some data ->
  environ st !! Py.lit "VIRTUAL_ENV" = Some active ->
  let dir := cache_path active (SHA1.hexdigest data) in
  let final := snd (main args st) in
  (fs_exists (world st) dir = true ->
   provision_calls (trace final) = provision_calls (trace st)) /\
  (fs_exists (world st) dir = false ->
   provision_calls (trace final) =
     provision_calls (trace st) ++ [(dir, IterStr (requirements args))] /\
   (creates_on_success -> never_removes ->
    (forall st1 st2,
       install_virtualenv dir (IterStr (requirements args)) st1 = (Ret 0%Z, st2) ->
       fs_exists (world st2) dir = true) /\
    (forall code, fst (main args st) = Ret code ->
                  fs_exists (world final) dir = true))).
Proof.
  intros Hread Hdata Hactive. cbv zeta.
  rewrite main_eq. cbv zeta. rewrite Hread, Hdata, Hactive.
  set (dir := cache_path active (SHA1.hexdigest data)).
  split.
  - intros ->. rewrite run_lint_calls. unfold logged. cbn [trace].
    rewrite provision_calls_app. cbn. now rewrite app_nil_r.
  - intros ->.
    destruct (install_virtualenv dir _ _) as [[z|e] st2] eqn:E.
    + assert (Hcalls := install_virtualenv_calls dir
                          (IterStr (requirements args))
                          (logged [EvOpen (requirements args); EvExists dir] st)).
      rewrite E in Hcalls. cbn [snd] in Hcalls.
      unfold logged in Hcalls. cbn [trace] in Hcalls.
      rewrite provision_calls_app in Hcalls. cbn in Hcalls.
      rewrite app_nil_r in Hcalls.
      split; [now rewrite run_lint_calls|].
      intros Hcreate Hkeep. split.
      * intros st1 st2' H. now apply (install_virtualenv_creates _ _ _ _ _ Hcreate Hkeep H).
      * intros code _. apply run_lint_world; [exact Hkeep|].
        now apply (install_virtualenv_creates _ _ _ _ _ Hcreate Hkeep E).
    + assert (Hcalls := install_virtualenv_calls dir
                          (IterStr (requirements args))
                          (logged [EvOpen (requirements args); EvExists dir] st)).
      rewrite E in Hcalls. cbn [snd] in Hcalls.
      unfold logged in Hcalls. cbn [trace] in Hcalls.
      rewrite provision_calls_app in Hcalls. cbn in Hcalls.
      rewrite app_nil_r in Hcalls.
      split; [exact Hcalls|].
      intros Hcreate Hkeep. split.
      * intros st1 st2' H. now apply (install_virtualenv_creates _ _ _ _ _ Hcreate Hkeep H).
      * intros code H. discriminate H.
Qed.

(** C7, as the script has it. With no active environment the run raises
    with nothing done but the manifest opened and read: no path is tested,
    no process is started, nothing is printed, and the environment table
    is untouched.  The error is the configuration error when the manifest
    was read and encoded, and the error of reading or encoding it
    otherwise. *)
Theorem main_without_virtualenv args st :
  environ st !! Py.lit "VIRTUAL_ENV" = None ->
  snd (main args st) = logged [EvOpen (requirements args)] st /\
  fst (main args st) =
    Raise (match fs_read (world st) (requirements args) with
           | ReadOSError errno => OSError errno
           | ReadDecodeError => UnicodeDecodeError
           | ReadRefused Py.Unencodable => UnicodeEncodeError
           | ReadRefused Py.EmbeddedNul => ValueError
           | ReadText text =>
               match reqs_digest_input (Py.readlines text) with
               | None => UnicodeEncodeError
               | Some _ =>
                   RuntimeError (Py.lit "Script must be run from virtualenv")
               end
           end).
Proof.
  intros Hnone. rewrite main_eq. cbv zeta. rewrite Hnone.
  destruct (fs_read _ _) as [text|errno| |[|]]; [|split; reflexivity..].
  destruct (reqs_digest_input _); split; reflexivity.
Qed.

(** C5, as the script has it. The key is the hexadecimal SHA-1 digest of
    the UTF-8 octets of the lines of the manifest, each with its own
    terminator, joined by a further newline; it names the directory [main]
    looks for; and the joined lines are the text of the manifest exactly
    when the manifest has at most one line. *)
Theorem cache_key_digest_of_joined_lines args st text data active :
  fs_read (world st) (requirements args) = ReadText text ->
  Py.encode (Py.join [Py.LF] (Py.readlines text)) = Some data ->
  environ st !! Py.lit "VIRTUAL_ENV" = Some active ->
  hash_requirements (Py.readlines text) st = (Ret (SHA1.hexdigest data), st) /\
  (exists evs,
     trace (snd (main args st)) =
     trace st ++ EvOpen (requirements args)
              :: EvExists (cache_path active (SHA1.hexdigest data)) :: evs) /\
  (Py.join [Py.LF] (Py.readlines text) = text <->
   (length (Py.readlines text) <= 1)%nat) /\
  ((length (Py.readlines text) <= 1)%nat -> Py.encode text = Some data).
Proof.
  intros Hread Hdata Hactive. split; [|split; [|split]].
  - unfold hash_requirements, reqs_digest_input. now rewrite Hdata.
  - apply (main_trace args st text); [exact Hread | | exact Hactive].
    unfold reqs_digest_input. now rewrite Hdata.
  - apply PyFacts.join_readlines_iff.
  - intros Hone. apply PyFacts.join_readlines_iff in Hone.
    now rewrite <- Hone.
Qed.

(** When nothing fails before the linter has run, [main] returns the exit
    status of the linter, zero or not. *)
Lemma main_returns_lint_status args st text data active dir code out err :
  fs_read (world st) (requirements args) = ReadText text ->
  reqs_digest_input (Py.readlines text) = Some data ->
  environ st !! Py.lit "VIRTUAL_ENV" = Some active ->
  dir = cache_path active (SHA1.hexdigest data) ->
  fs_exists (world st) dir = true ->
  fst (spawn (world st) (lint_cmd (files args)) (activate dir (environ st))) =
    Exited code out err ->
  fst (main args st) = Ret code.
Proof.
  intros Hread Hdata Hactive -> Hhit Hlint.
  rewrite main_eq. cbv zeta. rewrite Hread, Hdata, Hactive, Hhit.
  rewrite (run_lint_eq _ _ _ (fs_exists_taken _ _ Hhit)).
  cbn [fst logged environ world]. now rewrite Hlint.
Qed.

(** Whatever [main] returns is an exit status of the linter. *)
Lemma main_returns_lint_status_only args st code :
  fst (main args st) = Ret code ->
  exists w env out err,
    fst (spawn w (lint_cmd (files args)) env) = Exited code out err.
Proof.
  rewrite main_eq. cbv zeta.
  destruct (fs_read _ _) as [text|errno| |[|]]; try discriminate.
  destruct (reqs_digest_input _) as [data|]; try discriminate.
  destruct (_ !! _) as [active|]; try discriminate.
  assert (Hlint : forall dir st',
             fst (run_lint dir (files args) st') = Ret code ->
             exists w env out err,
               fst (spawn w (lint_cmd (files args)) env) = Exited code out err).
  { intros dir st'. destruct (Py.fs_error dir) as [r|] eqn:Hdir.
    - now rewrite (run_lint_refused _ _ _ _ Hdir).
    - rewrite (run_lint_eq _ _ _ Hdir). cbn [fst].
      destruct (fst (spawn _ _ _)) as [c out err|errno|r] eqn:E;
        [|discriminate..].
      intros [= ->]. eauto. }
  destruct (fs_exists _ _); [apply Hlint|].
  destruct (install_virtualenv _ _ _) as [[z|e] st2]; [apply Hlint|discriminate].
Qed.

(** X2. [install_virtualenv] returns zero or raises: a failing command ends
    in the [TypeError] of joining the argument tuple with [bytes], before
    anything is printed, so that no status other than zero is returned and
    no [CalledProcessError] leaves it. *)
Lemma install_virtualenv_outcome venv reqs st :
  printed (trace (snd (install_virtualenv venv reqs st))) = printed (trace st) /\
  (fst (install_virtualenv venv reqs st) = Ret 0%Z \/
   exists e, fst (install_virtualenv venv reqs st) = Raise e /\
             forall pe, e <> ProcessError pe).
Proof.
  rewrite install_virtualenv_eq. cbv zeta.
  repeat (destruct (fst (spawn _ _ _)) as [? ? ?|?|[|]] || destruct (decide _));
    cbn [fst snd trace]; unfold printed; rewrite ?flat_map_app; cbn;
    rewrite ?app_nil_r; (split; [reflexivity|]);
    try (left; reflexivity); right; eexists; (split; [reflexivity|]);
    discriminate.
Qed.

(** On a cache miss, a failing environment creation ends [main] with the
    [TypeError] of [process_error_to_str], whatever the exit status. *)
Lemma main_raises_on_failed_creation args st text data active code out err :
  fs_read (world st) (requirements args) = ReadText text ->
  reqs_digest_input (Py.readlines text) = Some data ->
  environ st !! Py.lit "VIRTUAL_ENV" = Some active ->
  fs_exists (world st) (cache_path active (SHA1.hexdigest data)) = false ->
  fst (spawn (world st)
         (create_cmd (cache_path active (SHA1.hexdigest data))) (environ st)) =
    Exited code out err ->
  code <> 0%Z ->
  fst (main args st) = Raise TypeError.
Proof.
  intros Hread Hdata Hactive Hmiss Hcreate Hcode.
  rewrite main_eq. cbv zeta. rewrite Hread, Hdata, Hactive, Hmiss.
  rewrite install_virtualenv_eq. cbv zeta. cbn [logged environ world].
  rewrite Hcreate. now rewrite decide_False by exact Hcode.
Qed.

End ScriptFacts.

(** ** SHA-1 *)

Module SHA1Facts.

Lemma length_word_bytes (w : N) : length (SHA1.word_bytes w) = 4%nat.
Proof. reflexivity. Qed.

Lemma length_digest (data : list byte) : length (SHA1.digest data) = 20%nat.
Proof.
  unfold SHA1.digest.
  destruct (fold_left _ _ _) as [[[[h0 h1] h2] h3] h4].
  rewrite !length_app, !length_word_bytes. reflexivity.
Qed.

Lemma hex_digit_inj (a b : N) :
  (a < 16)%N -> (b < 16)%N -> SHA1.hex_digit a = SHA1.hex_digit b -> a = b.
Proof.
  unfold SHA1.hex_digit. intros Ha Hb.
  destruct (N.ltb_spec a 10), (N.ltb_spec b 10); lia.
Qed.

Lemma hex_byte_inj (b1 b2 : byte) : SHA1.hex_byte b1 = SHA1.hex_byte b2 -> b1 = b2.
Proof.
  unfold SHA1.hex_byte. intros [= Hhi Hlo].
  pose proof (Byte.to_N_bounded b1) as B1.
  pose proof (Byte.to_N_bounded b2) as B2.
  apply hex_digit_inj in Hhi; [|lia..].
  apply hex_digit_inj in Hlo; [|lia..].
  assert (E : Byte.to_N b1 = Byte.to_N b2) by lia.
  pose proof (Byte.of_to_N b1) as O1. pose proof (Byte.of_to_N b2) as O2.
  congruence.
Qed.

(** The hexadecimal form loses nothing: equal keys are equal digests. *)
Lemma hexdigest_inj (d1 d2 : list byte) :
  SHA1.hexdigest d1 = SHA1.hexdigest d2 -> SHA1.digest d1 = SHA1.digest d2.
Proof.
  unfold SHA1.hexdigest. generalize (SHA1.digest d1), (SHA1.digest d2).
  induction l as [|b1 l1 IH]; intros [|b2 l2]; try discriminate;
    [reflexivity|].
  cbn [flat_map]. unfold SHA1.hex_byte at 1 3. cbn [app].
  intros [= Hhi Hlo Hrest]. f_equal; [|now apply IH].
  apply hex_byte_inj. unfold SHA1.hex_byte. congruence.
Qed.

End SHA1Facts.

(** ** Manifests in a different order *)

Module ReorderFacts.
Import Reorder.

#[local] Instance byte_eq_dec : EqDecision byte := Byte.byte_eq_dec.

Definition byte_of_nat (n : nat) : byte := default x00 (Byte.of_nat n).

#[local] Instance byte_finite : Finite byte.
Proof.
  refine (enc_finite Byte.to_nat byte_of_nat 256 _ _ _).
  - intros b. unfold byte_of_nat. now rewrite Byte.of_to_nat.
  - intros b. pose proof (Byte.to_nat_bounded b). lia.
  - intros i Hi. unfold byte_of_nat.
    destruct (Byte.of_nat i) as [b|] eqn:E.
    + now apply Byte.to_of_nat.
    + apply Byte.of_nat_None_iff in E. lia.
Defined.

Lemma byte_card : card byte = 256%nat.
Proof. reflexivity. Qed.

(** There are fewer digests than orders of 161 pairs of lines. *)
Lemma more_orders_than_digests : card (vec byte 20) < card (vec bool 161).
Proof.
  rewrite !vec_card, byte_card, bool_card.
  change 256%nat with (2 ^ 8)%nat. rewrite <- Nat.pow_mul_r.
  apply Nat.pow_lt_mono_r; lia.
Qed.


Lemma block_perm (b1 b2 : bool) : Permutation (block b1) (block b2).
Proof. destruct b1, b2; cbn; auto using Permutation_refl, perm_swap. Qed.

Lemma lines_perm (bits1 bits2 : list bool) :
  length bits1 = length bits2 -> Permutation (lines bits1) (lines bits2).
Proof.
  revert bits2. induction bits1 as [|b1 bits1 IH]; intros [|b2 bits2] Hlen;
    try discriminate; [apply Permutation_refl|].
  cbn [lines flat_map]. apply Permutation_app; [apply block_perm|].
  apply IH. now injection Hlen.
Qed.

Lemma lines_inj (bits1 bits2 : list bool) :
  length bits1 = length bits2 -> lines bits1 = lines bits2 -> bits1 = bits2.
Proof.
  revert bits2. induction bits1 as [|b1 bits1 IH]; intros [|b2 bits2] Hlen;
    try discriminate; [reflexivity|].
  cbn [lines flat_map]. intros H.
  assert (Hb : b1 = b2)
    by (destruct b1, b2; try reflexivity;
        cbv [block line_a line_b app] in H; discriminate H).
  subst b2. apply app_inv_head in H. f_equal. apply IH; [|exact H].
  now injection Hlen.
Qed.

(** Each member of the family is a manifest whose lines are [lines bits]. *)
Lemma readlines_text (bits : list bool) :
  Py.readlines (text bits) = lines bits.
Proof.
  unfold text. induction bits as [|b bits IH]; [reflexivity|].
  cbn [lines flat_map]. rewrite concat_app.
  fold (lines bits). destruct b; cbn; now rewrite IH.
Qed.

Lemma Forall_join (Q : N -> Prop) (sep : list N) (items : list (list N)) :
  Forall Q sep -> Forall (Forall Q) items -> Forall Q (Py.join sep items).
Proof.
  intros Hsep. induction 1 as [|x rest Hx Hrest IH]; [constructor|].
  destruct rest as [|y rest]; [exact Hx|].
  rewrite PyFacts.join_cons_cons. rewrite !Forall_app. auto.
Qed.

Lemma lines_ascii (bits : list bool) :
  Forall (Forall (fun c => (c < 128)%N)) (lines bits).
Proof.
  induction bits as [|b bits IH]; [constructor|].
  cbn [lines flat_map]. apply Forall_app. split; [|exact IH].
  destruct b; repeat constructor.
Qed.

Lemma digest_input_lines (bits : list bool) :
  reqs_digest_input (lines bits) = Some (octets bits).
Proof.
  apply PyFacts.encode_ascii, Forall_join; [|apply lines_ascii].
  repeat constructor.
Qed.

Lemma prefix_vec_to_list (n : nat) (l : list byte) :
  length l = n -> vec_to_list (prefix_vec n l) = l.
Proof.
  revert l. induction n as [|n IH]; intros [|b l] Hlen; try discriminate;
    [reflexivity|].
  cbn. f_equal. apply IH. now injection Hlen.
Qed.

(** There are more orders of the lines than digests: two members of the
    family have the same digest. *)
Lemma family_collision :
  exists bits1 bits2 : list bool,
    length bits1 = length bits2 /\ bits1 <> bits2 /\
    SHA1.digest (octets bits1) = SHA1.digest (octets bits2).
Proof.
  destruct (finite_pigeonhole fingerprint more_orders_than_digests)
    as (v1 & v2 & Hne & Heq).
  exists (vec_to_list v1), (vec_to_list v2). split; [|split].
  - now rewrite !length_vec_to_list.
  - intros H. apply Hne. now apply vec_to_list_inj2.
  - apply (f_equal vec_to_list) in Heq. unfold fingerprint in Heq.
    now rewrite !prefix_vec_to_list in Heq by apply SHA1Facts.length_digest.
Qed.

End ReorderFacts.

(** C9, as the script has it. Two manifests with the same lines in a
    different order feed different octet strings to the digest, and their
    keys differ unless the digests of the two octet strings are the same. *)
Theorem reordered_manifests_digest_inputs_differ (t1 t2 : list N) (d1 d2 : list byte) :
  Permutation (Py.readlines t1) (Py.readlines t2) ->
  Py.readlines t1 <> Py.readlines t2 ->
  reqs_digest_input (Py.readlines t1) = Some d1 ->
  reqs_digest_input (Py.readlines t2) = Some d2 ->
  d1 <> d2 /\
  (SHA1.digest d1 <> SHA1.digest d2 -> SHA1.hexdigest d1 <> SHA1.hexdigest d2).
Proof.
  intros _ Hne H1 H2. split.
  - intros ->. apply Hne. f_equal.
    apply PyFacts.join_readlines_inj. exact (PyFacts.encode_inj _ _ _ H1 H2).
  - intros Hd Hk. apply Hd. now apply SHA1Facts.hexdigest_inj.
Qed.

(** Against C9 as stated: the keys are 160 bits and the orders of 161
    pairs of lines are more, so two manifests with the same lines in a
    different order have the same key. *)
Lemma reordered_manifests_share_key :
  exists (t1 t2 : list N) (d1 d2 : list byte),
    Permutation (Py.readlines t1) (Py.readlines t2) /\
    Py.readlines t1 <> Py.readlines t2 /\
    reqs_digest_input (Py.readlines t1) = Some d1 /\
    reqs_digest_input (Py.readlines t2) = Some d2 /\
    SHA1.hexdigest d1 = SHA1.hexdigest d2.
Proof.
  destruct ReorderFacts.family_collision as (bits1 & bits2 & Hlen & Hne & Heq).
  exists (Reorder.text bits1), (Reorder.text bits2).
  eexists _, _. rewrite !ReorderFacts.readlines_text.
  split; [now apply ReorderFacts.lines_perm|].
  split; [intros H; apply Hne; now apply ReorderFacts.lines_inj|].
  split; [apply ReorderFacts.digest_input_lines|].
  split; [apply ReorderFacts.digest_input_lines|].
  unfold SHA1.hexdigest. now rewrite Heq.
Qed.


(** ** The simulated world and the concrete run *)

Module SimFacts.

Lemma sim_world_creates {P : Platform} manifest tool :
  @creates_on_success P (sim_world manifest tool).
Proof.
  intros w env dir out err Hrun.
  pose proof (@created_taken P (sim_world manifest tool) w dir env _ _ _ Hrun)
    as Hdir.
  revert Hrun. unfold create_cmd. cbn [spawn fs_exists sim_world].
  unfold sim_spawn, sim_exists.
  destruct (Py.cmd_error _); [discriminate|]. cbn [fst snd]. intros ->.
  rewrite decide_True by reflexivity.
  apply andb_true_intro. split; apply bool_decide_eq_true;
    [set_solver | exact Hdir].
Qed.

Lemma sim_world_never_removes manifest tool :
  @never_removes (sim_world manifest tool).
Proof.
  intros w command env path. cbn [spawn fs_exists sim_world].
  unfold sim_spawn, sim_exists.
  intros [Hin%bool_decide_eq_true Htaken]%andb_prop.
  apply andb_true_intro. split; [|exact Htaken]. apply bool_decide_eq_true.
  destruct (Py.cmd_error command); [exact Hin|]. cbn [snd].
  destruct command as [|a [|b [|c [|d rest]]]]; try exact Hin.
  destruct (tool _) as [[| |] out err|errno|r]; try exact Hin.
  destruct (decide _); [set_solver | exact Hin].
Qed.

End SimFacts.

Module Run.
Import Scenario.

(** C1. The claim has [main] return the provisioner's failure status.
    On a cache miss with an environment creation that exits 3, [main]
    ends in the [TypeError] of [process_error_to_str] instead: the status
    is not returned, nothing is printed, and the linter is never started. *)
Theorem main_loses_provisioning_failure :
  let st := sim_start (manifest one_line) (tools 3 0 0) env0 ∅ in
  fst (@main platform _ args st) = Raise TypeError /\
  fst (@main platform _ args st) <> Ret 3%Z /\
  spawned (trace (snd (@main platform _ args st))) =
    [@create_cmd platform venv] /\
  printed (trace (snd (@main platform _ args st))) = [].
Proof. vm_compute. repeat split. discriminate. Qed.

(** C2. The claim has [install_virtualenv] print a diagnostic and return
    the failing status.  With a failing environment creation (status 3) and
    with a failing install command (status 7), called on the lines of the
    manifest, it raises [TypeError] and prints nothing. *)
Theorem install_virtualenv_failure_raises :
  let reqs := IterList (Py.readlines one_line) in
  let st_create := sim_start (manifest one_line) (tools 3 0 0) env0 ∅ in
  let st_pip := sim_start (manifest one_line) (tools 0 7 0) env0 ∅ in
  fst (@install_virtualenv platform _ venv reqs st_create) = Raise TypeError /\
  printed (trace (snd (@install_virtualenv platform _ venv reqs st_create)))
    = [] /\
  fst (@install_virtualenv platform _ venv reqs st_pip) = Raise TypeError /\
  printed (trace (snd (@install_virtualenv platform _ venv reqs st_pip)))
    = [] /\
  spawned (trace (snd (@install_virtualenv platform _ venv reqs st_pip))) =
    [ @create_cmd platform venv; [Py.lit "pip"; Py.lit "install"; one_line] ].
Proof. vm_compute. repeat split. Qed.

(** C3. The claim has the provisioner given the lines of the manifest.
    On a cache miss [main] gives it the path of the manifest, and the
    install command gets the characters of that path as requirements, not
    the line [pylint==3.0.0]. *)
Theorem main_installs_characters_of_manifest_path :
  let st := sim_start (manifest one_line) (tools 0 0 0) env0 ∅ in
  fst (@main platform _ args st) = Ret 0%Z /\
  provision_calls (trace (snd (@main platform _ args st))) =
    [(venv, IterStr (Py.lit "requirements.txt"))] /\
  spawned (trace (snd (@main platform _ args st))) =
    [ @create_cmd platform venv;
      Py.lit "pip" :: Py.lit "install" ::
        map Py.lit ["r"; "e"; "q"; "u"; "i"; "r"; "e"; "m"; "e"; "n"; "t"; "s";
                    "."; "t"; "x"; "t"]%string;
      [Py.lit "pylint"; Py.lit "a.py"] ] /\
  Py.readlines one_line = [one_line].
Proof. vm_compute. repeat split. Qed.

(** Against C7 as stated: with no active environment the manifest is
    opened before the run fails, and a manifest that cannot be opened fails
    the run with that error, not with the configuration error. *)
Lemma main_opens_manifest_without_virtualenv :
  let env := delete (Py.lit "VIRTUAL_ENV") env0 in
  let st := sim_start (manifest one_line) (tools 0 0 0) env ∅ in
  let missing := {| requirements := Py.lit "absent.txt"; files := [] |} in
  environ st !! Py.lit "VIRTUAL_ENV" = None /\
  trace (snd (@main platform _ args st)) =
    [EvOpen (Py.lit "requirements.txt")] /\
  fst (@main platform _ missing st) = Raise (OSError 2).
Proof. vm_compute. repeat split. Qed.

(** Against C5 as stated: for a manifest of two lines the key is not the
    digest of the text of the manifest. *)
Lemma cache_key_not_digest_of_manifest_text :
  let st := sim_start (manifest two_lines) (tools 0 0 0) env0 ∅ in
  fs_read (world st) (requirements args) = ReadText two_lines /\
  fst (hash_requirements (Py.readlines two_lines) st) =
    Ret (Py.lit "8bc3673d32e901bd64971a49dd19e1f0293efcc9") /\
  SHA1.hexdigest <$> Py.encode two_lines =
    Some (Py.lit "cd5a55dd45fe87b96b46d6cd9886ce79da6f86e4").
Proof. vm_compute. repeat split. Qed.


(** Against C10 as stated: for an environment under a directory whose
    name holds the separator, the install command is started with a search
    path whose first entry is not the executable directory of the new
    environment. *)
Lemma install_first_entry_not_bin_dir :
  let dir := Py.lit "/ca:che/pylint_venvs/env" in
  let reqs := IterList (Py.readlines one_line) in
  let st := sim_start (manifest one_line) (tools 0 0 0) env0 ∅ in
  exists inside,
    trace (snd (@install_virtualenv platform _ dir reqs st)) =
      [EvProvision dir reqs;
       EvSpawn (@create_cmd platform dir) env0 true;
       EvSpawn (pip_cmd reqs) inside true] /\
    inside !! Py.lit "VIRTUAL_ENV" = Some dir /\
    inside !! Py.lit "PATH" =
      Some (Py.lit "/ca:che/pylint_venvs/env/bin:/usr/bin:/bin") /\
    @bin_dir platform dir = Py.lit "/ca:che/pylint_venvs/env/bin" /\
    first_entry 58 (Py.lit "/ca:che/pylint_venvs/env/bin:/usr/bin:/bin") =
      Some (Py.lit "/ca").
Proof.
  intros dir reqs st. exists (@activate platform dir env0).
  vm_compute. repeat split.
Qed.

(** The theorems of the script at the concrete run. *)

Lemma venv_context_mutates_four_witness :
  let env := <[Py.lit "PYTHONHOME" := Py.lit "/opt/python"]> env0 in
  let st := sim_start (manifest one_line) (tools 0 0 0) env ∅ in
  Py.fs_error venv = None /\
  exists inside,
    fst (@venv_context platform _ _ venv get_environ st) = Ret inside /\
    environ st !! Py.lit "PYTHONHOME" = Some (Py.lit "/opt/python") /\
    inside !! Py.lit "PYTHONHOME" = Some (Py.lit "/opt/python") /\
    inside !! Py.lit "PYTHON_HOME" = None /\
    inside !! Py.lit "PATH" =
      Some (Py.lit "/home/u/.cache/pre-commit/repo/pylint_venvs/66711a8dedd2bdf222feaec9b22f6bb320426413/bin:/usr/bin:/bin") /\
    inside !! Py.lit "HOME" = Some (Py.lit "/home/u").
Proof.
  intros env st.
  assert (Hvenv : Py.fs_error venv = None) by (vm_compute; reflexivity).
  assert (Hk : ~ In (Py.lit "HOME")
                    [Py.lit "PYTHON_HOME"; Py.lit "PIP_DISABLE_PIP_VERSION_CHECK";
                     Py.lit "VIRTUAL_ENV"; Py.lit "PATH"])
    by (cbn; intuition discriminate).
  split; [exact Hvenv|].
  destruct (@venv_context_mutates_four platform _ venv st Hvenv)
    as (inside & Hin & Hgone & Hhome & _ & _ & Hpath & Hother).
  exists inside. split; [exact Hin|].
  split; [vm_compute; reflexivity|].
  split; [rewrite Hhome; vm_compute; reflexivity|].
  split; [exact Hgone|].
  split; [rewrite Hpath; vm_compute; reflexivity|].
  rewrite (Hother _ Hk). vm_compute. reflexivity.
Defined.

Lemma install_runs_pip_in_activated_env_witness :
  let st := sim_start (manifest one_line) (tools 0 0 0) env0 ∅ in
  let reqs := IterStr (Py.lit "requirements.txt") in
  let bin := Py.lit "/home/u/.cache/pre-commit/repo/pylint_venvs/66711a8dedd2bdf222feaec9b22f6bb320426413/bin" in
  fst (spawn (world st) (@create_cmd platform venv) (environ st)) =
    Exited 0 (Py.blit "created") (Py.blit "virtualenv: failed") /\
  exists inside,
    trace (snd (@install_virtualenv platform _ venv reqs st)) =
      [EvProvision venv reqs;
       EvSpawn (@create_cmd platform venv) env0 true;
       EvSpawn (pip_cmd reqs) inside true] /\
    inside !! Py.lit "VIRTUAL_ENV" = Some venv /\
    inside !! Py.lit "PATH" = Some (bin ++ Py.lit ":/usr/bin:/bin") /\
    first_entry 58 (bin ++ Py.lit ":/usr/bin:/bin") = Some bin.
Proof.
  intros st reqs bin.
  assert (H : fst (spawn (world st) (@create_cmd platform venv) (environ st)) =
              Exited 0 (Py.blit "created") (Py.blit "virtualenv: failed"))
    by reflexivity.
  assert (Hbin : ~ In 58%N bin).
  { vm_compute. intros Hin.
    repeat (destruct Hin as [Hin|Hin]; [discriminate Hin|]). exact Hin. }
  split; [exact H|].
  destruct (@install_runs_pip_in_activated_env platform _ venv reqs st _ _ H)
    as (inside & Htrace & Hactive & Hpath & Hfirst).
  exists inside. split; [exact Htrace|]. split; [exact Hactive|].
  split; [rewrite Hpath; vm_compute; reflexivity|].
  pose proof (proj2 (Hfirst 58%N eq_refl) Hbin) as Hentry.
  vm_compute in Hentry |- *. exact Hentry.
Defined.

Lemma provision_only_on_cache_miss_witness :
  let active := Py.lit "/home/u/.cache/pre-commit/repo/py_env" in
  let dir := @cache_path platform active (SHA1.hexdigest one_line_octets) in
  let miss := sim_start (manifest one_line) (tools 0 0 4) env0 ∅ in
  let hit := sim_start (manifest one_line) (tools 0 0 4) env0 {[dir]} in
  (fs_read (world miss) (requirements args) = ReadText one_line /\
   reqs_digest_input (Py.readlines one_line) = Some one_line_octets /\
   environ miss !! Py.lit "VIRTUAL_ENV" = Some active) /\
  (fs_exists (world miss) dir = false /\
   provision_calls (trace (snd (@main platform _ args miss))) =
     [(dir, IterStr (requirements args))] /\
   fs_exists (world (snd (@main platform _ args miss))) dir = true) /\
  (fs_exists (world hit) dir = true /\
   provision_calls (trace (snd (@main platform _ args hit))) = []).
Proof.
  intros active dir miss hit.
  assert (Hread : fs_read (world miss) (requirements args) = ReadText one_line)
    by reflexivity.
  assert (Hdata : reqs_digest_input (Py.readlines one_line) = Some one_line_octets)
    by (vm_compute; reflexivity).
  assert (Hactive : environ miss !! Py.lit "VIRTUAL_ENV" = Some active)
    by (vm_compute; reflexivity).
  assert (Hno : fs_exists (world miss) dir = false)
    by (vm_compute; reflexivity).
  assert (Hyes : fs_exists (world hit) dir = true)
    by (vm_compute; reflexivity).
  split; [auto|]. split.
  - destruct (@provision_only_on_cache_miss platform _ args miss _ _ _
                Hread Hdata Hactive) as [_ Hmiss].
    destruct (Hmiss Hno) as [Hcalls Hthere].
    split; [exact Hno|]. split; [exact Hcalls|].
    destruct (Hthere (SimFacts.sim_world_creates _ _)
                     (SimFacts.sim_world_never_removes _ _)) as [_ Hend].
    apply (Hend 4%Z). vm_compute. reflexivity.
  - destruct (@provision_only_on_cache_miss platform _ args hit _ _ _
                Hread Hdata Hactive) as [Hhit _].
    split; [exact Hyes|]. exact (Hhit Hyes).
Defined.

Lemma main_without_virtualenv_witness :
  let st := sim_start (manifest one_line) (tools 0 0 0)
                      (delete (Py.lit "VIRTUAL_ENV") env0) ∅ in
  environ st !! Py.lit "VIRTUAL_ENV" = None /\
  snd (@main platform _ args st) = logged [EvOpen (requirements args)] st /\
  fst (@main platform _ args st) =
    Raise (RuntimeError (Py.lit "Script must be run from virtualenv")).
Proof.
  intros st.
  assert (H : environ st !! Py.lit "VIRTUAL_ENV" = None)
    by (vm_compute; reflexivity).
  split; [exact H|].
  destruct (@main_without_virtualenv platform _ args st H) as [Hst Hres].
  split; [exact Hst|]. rewrite Hres. vm_compute. reflexivity.
Defined.

Lemma cache_key_digest_of_joined_lines_witness :
  let st := sim_start (manifest one_line) (tools 0 0 0) env0 ∅ in
  fs_read (world st) (requirements args) = ReadText one_line /\
  Py.encode (Py.join [Py.LF] (Py.readlines one_line)) = Some one_line_octets /\
  environ st !! Py.lit "VIRTUAL_ENV" =
    Some (Py.lit "/home/u/.cache/pre-commit/repo/py_env") /\
  hash_requirements (Py.readlines one_line) st =
    (Ret (SHA1.hexdigest one_line_octets), st) /\
  Py.encode one_line = Some one_line_octets.
Proof.
  intros st.
  assert (Hread : fs_read (world st) (requirements args) = ReadText one_line)
    by reflexivity.
  assert (Hdata : Py.encode (Py.join [Py.LF] (Py.readlines one_line)) =
                  Some one_line_octets)
    by (vm_compute; reflexivity).
  assert (Hactive : environ st !! Py.lit "VIRTUAL_ENV" =
                    Some (Py.lit "/home/u/.cache/pre-commit/repo/py_env"))
    by (vm_compute; reflexivity).
  repeat (split; [assumption|]).
  destruct (@cache_key_digest_of_joined_lines platform _ args st _ _ _
              Hread Hdata Hactive) as (Hkey & _ & _ & Hone).
  split; [exact Hkey|]. apply Hone. vm_compute. lia.
Defined.

End Run.

Lemma reordered_manifests_digest_inputs_differ_witness :
  let t1 := Reorder.text [false] in
  let t2 := Reorder.text [true] in
  let d1 := Reorder.octets [false] in
  let d2 := Reorder.octets [true] in
  (Permutation (Py.readlines t1) (Py.readlines t2) /\
   Py.readlines t1 <> Py.readlines t2 /\
   reqs_digest_input (Py.readlines t1) = Some d1 /\
   reqs_digest_input (Py.readlines t2) = Some d2) /\
  d1 <> d2 /\
  SHA1.hexdigest d1 <> SHA1.hexdigest d2.
Proof.
  intros t1 t2 d1 d2.
  assert (Hperm : Permutation (Py.readlines t1) (Py.readlines t2))
    by apply perm_swap.
  assert (Hne : Py.readlines t1 <> Py.readlines t2) by discriminate.
  assert (H1 : reqs_digest_input (Py.readlines t1) = Some d1) by reflexivity.
  assert (H2 : reqs_digest_input (Py.readlines t2) = Some d2) by reflexivity.
  split; [auto|].
  destruct (reordered_manifests_digest_inputs_differ t1 t2 d1 d2
              Hperm Hne H1 H2) as [Hd Hk].
  split; [exact Hd|]. apply Hk. vm_compute. discriminate.
Defined.

(** ** More on the script *)

Section Coverage.
Context {P : Platform} {W : World}.
Implicit Types (st : state) (env : gmap (list N) (list N)) (venv : list N).

Lemma spawned_app (tr1 tr2 : list event) :
  spawned (tr1 ++ tr2) = spawned tr1 ++ spawned tr2.
Proof. apply flat_map_app. Qed.






(** X6. [install_virtualenv] starts the environment creation once and,
    only when that exited zero, the installer once: no command is retried
    and nothing follows a creation that failed, could not be started or was
    refused. *)
Theorem install_virtualenv_spawns venv reqs st :
  spawned (trace (snd (install_virtualenv venv reqs st))) =
  spawned (trace st) ++
  create_cmd venv ::
    match fst (spawn (world st) (create_cmd venv) (environ st)) with
    | Exited code _ _ => if decide (code = 0%Z) then [pip_cmd reqs] else []
    | SpawnOSError _ => []
    | SpawnRefused _ => []
    end.
Proof.
  rewrite install_virtualenv_eq. cbv zeta.
  destruct (fst (spawn (world st) _ _)) as [code out err|errno|r];
    [destruct (decide (code = 0%Z))| |];
    repeat (destruct (fst (spawn _ _ _)) || destruct (decide _));
    cbn [snd trace]; rewrite !spawned_app; cbn; rewrite ?app_nil_r;
    try reflexivity; now rewrite <- app_assoc.
Qed.

(** X7. [process_error_to_str] raises [TypeError] exactly when one of the
    three attributes of the error is not [bytes]; in particular for every
    error that [call] raises, whose command is the argument tuple. *)
Theorem process_error_to_str_type_error e :
  (process_error_to_str e = Raise TypeError <->
   ~ exists c o r,
       cmd e = PyBytes c /\ stdout e = PyBytes o /\ stderr e = PyBytes r) /\
  (forall command capture st pe,
     fst (call command capture st) = Raise (ProcessError pe) ->
     process_error_to_str pe = Raise TypeError).
Proof.
  split.
  - unfold process_error_to_str.
    destruct (cmd e) as [|c|items], (stdout e) as [|o|oitems],
      (stderr e) as [|r|ritems]; cbn [bytes_join fmap option_fmap option_map];
      try (split; [intros _ (c' & o' & r' & H1 & H2 & H3); discriminate
                  | reflexivity]).
    split.
    + destruct (Py.decode _); intros H; discriminate H.
    + intros H. exfalso. apply H. exists c, o, r. auto.
  - intros command capture st pe. rewrite call_eq. cbn [fst].
    destruct (fst (spawn _ _ _)) as [code out err|errno|[|]];
      [|discriminate..].
    destruct (decide _); [discriminate|]. intros [= <-]. reflexivity.
Qed.

(** X9. [read_requirements] returns the text of the manifest cut into
    lines that keep their terminators: put end to end they are the text,
    none is empty, a newline occurs in a line only as its last character,
    and every line but the last ends with one.  Nothing else is done but
    the manifest opened. *)
Theorem read_requirements_lines path st text :
  fs_read (world st) path = ReadText text ->
  exists lines,
    read_requirements path st = (Ret lines, logged [EvOpen path] st) /\
    concat lines = text /\
    Forall (fun line => line <> [] /\ ~ In Py.LF (removelast line)) lines /\
    Forall (fun line => List.last line 0%N = Py.LF) (removelast lines).
Proof.
  intros Hread. exists (Py.readlines text).
  split; [unfold read_requirements, log, logged; cbn; now rewrite Hread|].
  split; [apply PyFacts.concat_readlines|].
  clear Hread. split.
  - induction text as [|c rest IH]; [constructor|]. cbn [Py.readlines].
    destruct (N.eqb_spec c Py.LF) as [->|Hc].
    + constructor; [|exact IH]. split; [discriminate|]. cbn. tauto.
    + destruct (Py.readlines rest) as [|line lines];
        [repeat constructor; [discriminate | cbn; tauto]|].
      inversion IH as [|? ? [Hne Hno] Hrest]; subst.
      constructor; [|exact Hrest]. split; [discriminate|].
      destruct line as [|d line]; [contradiction|].
      cbn [removelast] in *. intros [Hin|Hin]; [now apply Hc | now apply Hno].
  - induction text as [|c rest IH]; [constructor|]. cbn [Py.readlines].
    destruct (N.eqb_spec c Py.LF) as [->|Hc].
    + destruct (Py.readlines rest) as [|line lines] eqn:E; [constructor|].
      cbn [removelast]. constructor; [reflexivity | exact IH].
    + destruct (Py.readlines rest) as [|line lines] eqn:E; [constructor|].
      assert (Hline : line <> []).
      { pose proof (PyFacts.concat_readlines rest) as Hc'.
        intros ->.
        assert (Hin : In [] (Py.readlines rest)) by (rewrite E; now left).
        clear -Hin. induction rest as [|d rest IH]; [contradiction|].
        cbn [Py.readlines] in Hin. destruct (N.eqb d Py.LF).
        - destruct Hin as [Hin|Hin]; [discriminate | auto].
        - destruct (Py.readlines rest) as [|l ls].
          + destruct Hin as [Hin|[]]. discriminate.
          + destruct Hin as [Hin|Hin]; [discriminate|]. apply IH. now right. }
      destruct lines as [|line' lines']; [constructor|].
      cbn [removelast] in *. inversion IH as [|? ? Hlast Hrest]; subst.
      constructor; [|exact Hrest].
      destruct line as [|d line]; [contradiction|]. exact Hlast.
Qed.




(** X13. A manifest that cannot be opened or decoded ends [main] with that
    error, with nothing else done, whether or not an environment is
    active. *)
Theorem main_unreadable_manifest args st :
  (forall text, fs_read (world st) (requirements args) <> ReadText text) ->
  main args st =
  (Raise (match fs_read (world st) (requirements args) with
          | ReadOSError errno => OSError errno
          | ReadRefused Py.Unencodable => UnicodeEncodeError
          | ReadRefused Py.EmbeddedNul => ValueError
          | _ => UnicodeDecodeError
          end),
   logged [EvOpen (requirements args)] st).
Proof.
  intros Hbad. rewrite main_eq. cbv zeta.
  destruct (fs_read _ _) as [text|errno| |[|]]; try reflexivity.
  now destruct (Hbad text).
Qed.

(** X14. An empty manifest is accepted: it has no lines, and its key is
    the SHA-1 digest of the empty octet string. *)
Theorem main_empty_manifest args st active :
  fs_read (world st) (requirements args) = ReadText [] ->
  environ st !! Py.lit "VIRTUAL_ENV" = Some active ->
  exists evs,
    trace (snd (main args st)) =
    trace st ++ EvOpen (requirements args)
             :: EvExists (cache_path active
                            (Py.lit "da39a3ee5e6b4b0d3255bfef95601890afd80709"))
             :: evs.
Proof.
  intros Hread Hactive.
  replace (Py.lit "da39a3ee5e6b4b0d3255bfef95601890afd80709") with
    (SHA1.hexdigest []) by (vm_compute; reflexivity).
  now apply (main_trace args st []).
Qed.

End Coverage.

(** X15. Two manifests whose texts, as [open] in text mode delivers them
    (the line endings already turned into newlines), differ in any way,
    be it content, white space or the order of lines, feed different octet
    strings to the digest. *)
Theorem distinct_manifests_distinct_digest_inputs
    (t1 t2 : list N) (d1 d2 : list byte) :
  t1 <> t2 ->
  reqs_digest_input (Py.readlines t1) = Some d1 ->
  reqs_digest_input (Py.readlines t2) = Some d2 ->
  d1 <> d2.
Proof.
  intros Hne H1 H2 ->. apply Hne.
  apply PyFacts.join_readlines_inj. exact (PyFacts.encode_inj _ _ _ H1 H2).
Qed.


(** ** The assignments of the scoped activation

    The value assigned to [PATH] is one [os.environ] takes: on POSIX it is
    made of the environment path, which the assignment before it has
    taken, of [/bin], of a colon and of the search path read from
    [os.environ]. *)

Module EnvironFacts.

Lemma fs_error_app (a b : list N) :
  Py.fs_error a = None -> Py.fs_error b = None -> Py.fs_error (a ++ b) = None.
Proof.
  unfold Py.fs_error. rewrite forallb_app, existsb_app.
  destruct (forallb _ a), (existsb _ a), (forallb _ b), (existsb _ b);
    cbn; congruence.
Qed.

Lemma posix_search_path_taken (cwd executable venv : list N)
    (env : gmap (list N) (list N)) :
  Py.fs_error venv = None ->
  Py.fs_error (default [] (env !! Py.lit "PATH")) = None ->
  exists value,
    @activate (Posix.platform cwd executable) venv env !! Py.lit "PATH" =
      Some value /\
    Py.fs_error value = None.
Proof.
  intros Hvenv Hprior. rewrite activate_lookup.
  rewrite decide_True by reflexivity. eexists. split; [reflexivity|].
  apply fs_error_app; [|apply fs_error_app; [reflexivity | exact Hprior]].
  unfold bin_dir. cbn [os_name path_join Posix.platform].
  rewrite decide_False by discriminate.
  unfold Posix.join, Posix.join_step. cbn [fold_left Posix.startswith_sep Py.lit].
  change (N.eqb _ Posix.sep) with false. cbv iota.
  destruct (match venv with [] => true | _ => Posix.endswith_sep venv end);
    repeat (apply fs_error_app; try reflexivity); exact Hvenv.
Qed.

End EnvironFacts.

(** ** The layout of the cache on POSIX *)

Module PosixFacts.
Import Posix.

Lemma split_no_sep (comp : list N) :
  ~ In sep comp -> Py.split sep comp = [comp].
Proof.
  induction comp as [|c comp IH]; intros Hno; [reflexivity|].
  cbn [Py.split]. destruct (N.eqb_spec c sep) as [->|Hc].
  - exfalso. apply Hno. now left.
  - rewrite IH by (intros H; apply Hno; now right). reflexivity.
Qed.

Lemma split_app_sep (comp rest : list N) :
  ~ In sep comp ->
  Py.split sep (comp ++ sep :: rest) = comp :: Py.split sep rest.
Proof.
  induction comp as [|c comp IH]; intros Hno.
  - cbn [app Py.split]. now rewrite N.eqb_refl.
  - cbn [app Py.split]. destruct (N.eqb_spec c sep) as [->|Hc].
    + exfalso. apply Hno. now left.
    + rewrite IH by (intros H; apply Hno; now right). reflexivity.
Qed.

Lemma split_join (comps : list (list N)) :
  comps <> [] -> Forall (fun comp => ~ In sep comp) comps ->
  Py.split sep (Py.join [sep] comps) = comps.
Proof.
  intros Hne Hall. induction Hall as [|x rest Hx Hrest IH]; [contradiction|].
  destruct rest as [|y rest].
  - cbn. now apply split_no_sep.
  - rewrite PyFacts.join_cons_cons. cbn [app].
    rewrite split_app_sep by exact Hx. f_equal. now apply IH.
Qed.

Lemma join_snoc (l : list (list N)) (x : list N) :
  l <> [] -> Py.join [sep] (l ++ [x]) = Py.join [sep] l ++ [sep] ++ x.
Proof.
  induction l as [|a l IH]; [contradiction|]. intros _.
  destruct l as [|b l]; [reflexivity|].
  change ((a :: b :: l) ++ [x]) with (a :: (b :: l) ++ [x]).
  cbn [app]. rewrite !PyFacts.join_cons_cons.
  change (b :: l ++ [x]) with ((b :: l) ++ [x]).
  rewrite IH by discriminate. now rewrite <- !app_assoc.
Qed.

Lemma endswith_sep_app (s comp : list N) :
  comp <> [] -> ~ In sep comp -> endswith_sep (s ++ comp) = false.
Proof.
  intros Hne Hno. unfold endswith_sep. rewrite rev_app_distr.
  destruct (rev comp) as [|c r] eqn:E.
  - apply (f_equal (@rev N)) in E. rewrite rev_involutive in E. contradiction.
  - cbn. apply N.eqb_neq. intros ->. apply Hno. apply in_rev.
    rewrite E. now left.
Qed.

(** One step of [join] on a rooted path of components. *)
Lemma join_step_snoc (l : list (list N)) (b : list N) :
  Forall (fun comp => comp <> [] /\ ~ In sep comp) l ->
  startswith_sep b = false ->
  join_step (sep :: Py.join [sep] l) b = sep :: Py.join [sep] (l ++ [b]).
Proof.
  intros Hall Hb. unfold join_step. rewrite Hb.
  destruct l as [|a l].
  - reflexivity.
  - rewrite join_snoc by discriminate.
    destruct (exists_last (l := a :: l)) as (init & z & Hinit); [discriminate|].
    assert (Hz : z <> [] /\ ~ In sep z).
    { rewrite Hinit in Hall. apply Forall_app in Hall as [_ Hz].
      now inversion Hz. }
    assert (Hend : endswith_sep (sep :: Py.join [sep] (a :: l)) = false).
    { rewrite Hinit. destruct init as [|i init].
      - cbn [app Py.join]. apply (endswith_sep_app [sep]); tauto.
      - rewrite join_snoc by discriminate.
        replace (sep :: Py.join [sep] (i :: init) ++ [sep] ++ z)
          with ((sep :: Py.join [sep] (i :: init) ++ [sep]) ++ z)
          by (cbn [app]; now rewrite <- app_assoc).
        apply endswith_sep_app; tauto. }
    rewrite Hend. reflexivity.
Qed.

Lemma fold_norm_step_plain (n : nat) (comps acc : list (list N)) :
  Forall plain comps ->
  fold_left (norm_step n) comps acc = rev comps ++ acc.
Proof.
  intros Hall. revert acc. induction Hall as [|c comps Hc _ IH]; intros acc;
    [reflexivity|].
  cbn [fold_left rev]. rewrite IH, <- app_assoc. cbn [app]. f_equal.
  destruct Hc as (Hne & _ & Hdot & Hdd). unfold norm_step.
  rewrite (bool_decide_eq_false_2 _ Hne), (bool_decide_eq_false_2 _ Hdot),
    (bool_decide_eq_false_2 _ Hdd). reflexivity.
Qed.

Lemma tail_rev (l : list (list N)) : tail (rev l) = rev (removelast l).
Proof.
  destruct l as [|a l]; [reflexivity|].
  destruct (exists_last (l := a :: l)) as (init & z & ->); [discriminate|].
  rewrite rev_app_distr, removelast_last. reflexivity.
Qed.

(** The parent of a rooted, normalised path. *)
Lemma abspath_parent (cwd : list N) (comps : list (list N)) :
  comps <> [] -> Forall plain comps ->
  abspath cwd (join (sep :: Py.join [sep] comps) [dotdot]) =
  sep :: Py.join [sep] (removelast comps).
Proof.
  intros Hne Hall.
  assert (Hsafe : Forall (fun comp => comp <> [] /\ ~ In sep comp) comps)
    by (eapply Forall_impl; [exact Hall|]; intros c (? & ? & _); tauto).
  cbn [join fold_left]. rewrite join_step_snoc by (exact Hsafe || reflexivity).
  unfold abspath. cbn [startswith_sep]. rewrite N.eqb_refl.
  assert (Hsplit : Py.split sep (sep :: Py.join [sep] (comps ++ [dotdot])) =
                   [] :: comps ++ [dotdot]).
  { cbn [Py.split]. rewrite N.eqb_refl. f_equal. apply split_join.
    - destruct comps; discriminate.
    - apply Forall_app. split.
      + eapply Forall_impl; [exact Hsafe|]. intros c [_ H]. exact H.
      + repeat constructor. cbn. intros [H|[H|[]]]; discriminate H. }
  destruct comps as [|[|c1 comp1] rest]; [contradiction| |].
  { inversion Hall as [|? ? (H & _) _]. contradiction. }
  assert (Hc1 : c1 <> sep).
  { inversion Hall as [|? ? (_ & H & _) _]. intros ->. apply H. now left. }
  unfold normpath.
  remember (Py.join [sep] (((c1 :: comp1) :: rest) ++ [dotdot])) as body eqn:Hbody.
  assert (Hb : exists b2 body', body = c1 :: b2 :: body').
  { subst body. change (((c1 :: comp1) :: rest) ++ [dotdot])
      with ((c1 :: comp1) :: (rest ++ [dotdot])).
    rewrite PyFacts.join_cons_char.
    destruct comp1 as [|b2 comp1].
    - destruct (rest ++ [dotdot]) as [|y ys] eqn:E;
        [destruct rest; discriminate|].
      rewrite PyFacts.join_cons_cons. cbn. eauto.
    - rewrite PyFacts.join_cons_char. eauto. }
  destruct Hb as (b2 & body' & Hbody').
  rewrite Hsplit. rewrite Hbody'. 
  apply N.eqb_neq in Hc1. rewrite N.eqb_refl, Hc1. cbn [andb].
  cbn [fold_left]. 
  change (norm_step 1 [] []) with (@nil (list N)).
  rewrite fold_left_app.
  rewrite (fold_norm_step_plain 1 ((c1 :: comp1) :: rest) []) by exact Hall.
  rewrite app_nil_r. cbn [fold_left].
  assert (Hstep : norm_step 1 (rev ((c1 :: comp1) :: rest)) dotdot =
                  tail (rev ((c1 :: comp1) :: rest))).
  { destruct (exists_last (l := (c1 :: comp1) :: rest)) as (init & z & Hz);
      [discriminate|].
    rewrite Hz, rev_app_distr. cbn [rev app].
    assert (Hzd : z <> dotdot).
    { rewrite Hz in Hall. apply Forall_app in Hall as [_ Hzp].
      inversion Hzp as [|? ? (_ & _ & _ & H) _]. exact H. }
    unfold norm_step. rewrite (bool_decide_eq_false_2 _ Hzd). reflexivity. }
  rewrite Hstep, tail_rev, rev_involutive. reflexivity.
Qed.

Lemma Forall_removelast {A} (Q : A -> Prop) (l : list A) :
  Forall Q l -> Forall Q (removelast l).
Proof.
  induction 1 as [|x l Hx Hl IH]; [constructor|].
  destruct l as [|y l]; [constructor|]. cbn [removelast] in *.
  constructor; assumption.
Qed.

End PosixFacts.

Module KeyFacts.

Lemma hex_digit_is_hex (n : N) :
  (n < 16)%N -> is_hex_digit (SHA1.hex_digit n) = true.
Proof.
  intros Hn. unfold is_hex_digit, SHA1.hex_digit.
  destruct (N.ltb_spec n 10).
  - replace (48 <=? 48 + n)%N with true by (symmetry; apply N.leb_le; lia).
    replace (48 + n <=? 57)%N with true by (symmetry; apply N.leb_le; lia).
    reflexivity.
  - replace (97 <=? 87 + n)%N with true by (symmetry; apply N.leb_le; lia).
    replace (87 + n <=? 102)%N with true by (symmetry; apply N.leb_le; lia).
    now rewrite orb_true_r.
Qed.

Lemma hex_bytes_shape (d : list byte) :
  length (flat_map SHA1.hex_byte d) = (2 * length d)%nat /\
  Forall (fun c => is_hex_digit c = true) (flat_map SHA1.hex_byte d).
Proof.
  induction d as [|b d [IHlen IHall]]; [split; [reflexivity | constructor]|].
  cbn [flat_map]. unfold SHA1.hex_byte at 1 3. cbn [app length].
  pose proof (Byte.to_N_bounded b) as Hb. split; [lia|].
  repeat constructor; [apply hex_digit_is_hex..|exact IHall].
  - apply N.Div0.div_lt_upper_bound. lia.
  - apply N.mod_lt. lia.
Qed.

(** The key is forty lower-case hexadecimal digits. *)
Lemma hexdigest_shape (data : list byte) :
  length (SHA1.hexdigest data) = 40%nat /\
  Forall (fun c => is_hex_digit c = true) (SHA1.hexdigest data).
Proof.
  unfold SHA1.hexdigest.
  destruct (hex_bytes_shape (SHA1.digest data)) as [Hlen Hall].
  split; [|exact Hall]. rewrite Hlen, SHA1Facts.length_digest. reflexivity.
Qed.

(** UTF-8 encodes the code points that are not surrogates, and those
    only. *)
Lemma utf8_char_scalar (c : N) :
  is_scalar c = true <-> exists b, Py.utf8_char c = Some b.
Proof.
  unfold is_scalar, Py.utf8_char.
  repeat match goal with
  | |- context [N.ltb ?a ?b] => destruct (N.ltb_spec a b)
  | |- context [N.leb ?a ?b] => destruct (N.leb_spec a b)
  end; cbn [andb orb]; try lia;
    (split; [intros Hc; try discriminate Hc; eauto
            | intros [b Hb]; try discriminate Hb; reflexivity]).
Qed.

Lemma encode_scalar (s : list N) :
  Forall (fun c => is_scalar c = true) s <-> exists b, Py.encode s = Some b.
Proof.
  induction s as [|c rest IH]; cbn [Py.encode].
  - split; [eauto | constructor].
  - rewrite Forall_cons_iff, IH, utf8_char_scalar. split.
    + intros [[b ->] [bs ->]]. eauto.
    + destruct (Py.utf8_char c) as [b|]; [|intros [? [=]]].
      destruct (Py.encode rest) as [bs|]; [|intros [? [=]]]. eauto.
Qed.

Lemma Forall_join_iff (Q : N -> Prop) (sep : list N) (items : list (list N)) :
  Forall Q sep ->
  Forall Q (Py.join sep items) <-> Forall (Forall Q) items.
Proof.
  intros Hsep. induction items as [|x rest IH]; [split; constructor|].
  destruct rest as [|y rest].
  - cbn [Py.join]. rewrite Forall_cons_iff. split; [auto | tauto].
  - rewrite PyFacts.join_cons_cons, !Forall_app, (Forall_cons_iff _ x), IH.
    tauto.
Qed.

Lemma hexdigest_not_rooted (data : list byte) :
  Posix.startswith_sep (SHA1.hexdigest data) = false.
Proof.
  destruct (hexdigest_shape data) as [Hlen Hall].
  destruct (SHA1.hexdigest data) as [|c key]; [reflexivity|].
  inversion Hall as [|? ? Hc _]. cbn. apply N.eqb_neq. intros ->.
  discriminate Hc.
Qed.

End KeyFacts.


Section PosixLayout.
Context (cwd executable : list N) {W : World}.

(** X16. On POSIX, with the active environment at the rooted, normalised
    path [/c1/.../cn], the cache directory of a key is
    [/c1/.../c(n-1)/pylint_venvs/<key>]: the cache root is the parent of the
    active environment, and looking it up changes nothing. *)
Theorem posix_venv_cache_dir (comps : list (list N)) (data : list byte)
    (st : @state W) :
  comps <> [] -> Forall plain comps ->
  environ st !! Py.lit "VIRTUAL_ENV" =
    Some (Posix.sep :: Py.join [Posix.sep] comps) ->
  @venv_cache_dir (Posix.platform cwd executable) W (SHA1.hexdigest data) st =
  (Ret (Posix.sep :: Py.join [Posix.sep]
          (removelast comps ++ [Py.lit "pylint_venvs"; SHA1.hexdigest data])),
   st).
Proof.
  intros Hne Hall Hactive.
  unfold venv_cache_dir, cache_dir, bind, get_environ, ret. rewrite Hactive.
  cbn [path_join path_abspath os_pardir Posix.platform].
  change (Py.lit "..") with Posix.dotdot.
  rewrite PosixFacts.abspath_parent by assumption.
  assert (Hsafe : Forall (fun comp => comp <> [] /\ ~ In Posix.sep comp)
                         (removelast comps)).
  { apply PosixFacts.Forall_removelast. eapply Forall_impl; [exact Hall|].
    intros c (? & ? & _). tauto. }
  unfold Posix.join. cbn [fold_left].
  rewrite PosixFacts.join_step_snoc by (exact Hsafe || reflexivity).
  rewrite PosixFacts.join_step_snoc.
  - now rewrite <- app_assoc.
  - apply Forall_app. split; [exact Hsafe|]. repeat constructor;
      [discriminate|]. vm_compute. intros H.
    repeat (destruct H as [H|H]; [discriminate H|]). exact H.
  - apply KeyFacts.hexdigest_not_rooted.
Qed.

End PosixLayout.

(** ** The diagnostic *)

Module DiagnosticFacts.

Lemma encode_app (s1 s2 : list N) (b1 b2 : list byte) :
  Py.encode s1 = Some b1 -> Py.encode s2 = Some b2 ->
  Py.encode (s1 ++ s2) = Some (b1 ++ b2).
Proof.
  revert b1. induction s1 as [|c s1 IH]; intros b1.
  - intros [= <-] H2. exact H2.
  - cbn [app Py.encode]. destruct (Py.utf8_char c) as [bc|]; [|discriminate].
    destruct (Py.encode s1) as [bs|]; [|discriminate].
    intros [= <-] H2. rewrite (IH bs eq_refl H2). now rewrite <- app_assoc.
Qed.

Lemma encode_app_eq (s1 s2 : list N) (b1 : list byte) :
  Py.encode s1 = Some b1 ->
  Py.encode (s1 ++ s2) = (fun b2 => b1 ++ b2) <$> Py.encode s2.
Proof.
  revert b1. induction s1 as [|c s1 IH]; intros b1.
  - intros [= <-]. cbn. now destruct (Py.encode s2).
  - cbn [app Py.encode]. destruct (Py.utf8_char c) as [bc|]; [|discriminate].
    destruct (Py.encode s1) as [bs|]; [|discriminate].
    intros [= <-]. rewrite (IH bs eq_refl).
    destruct (Py.encode s2); cbn; [now rewrite <- app_assoc | reflexivity].
Qed.

End DiagnosticFacts.

(** X8. On an error whose command and captured output are [bytes] holding
    UTF-8 text, [process_error_to_str] returns the three sections in order,
    each under its heading and ended by a newline. *)
Theorem process_error_to_str_formats
    (code : Z) (c o r : list N) (cb ob rb : list byte) :
  Py.encode c = Some cb -> Py.encode o = Some ob -> Py.encode r = Some rb ->
  process_error_to_str
    {| returncode := code; cmd := PyBytes cb;
       stdout := PyBytes ob; stderr := PyBytes rb |} =
  Ret (Py.lit "command:" ++ [Py.LF; Py.LF] ++ c ++ [Py.LF] ++
       Py.lit "stdout:" ++ [Py.LF; Py.LF] ++ o ++ [Py.LF] ++
       Py.lit "stderr:" ++ [Py.LF; Py.LF] ++ r ++ [Py.LF]).
Proof.
  intros Hc Ho Hr. unfold process_error_to_str.
  cbn [cmd stdout stderr bytes_join fmap option_fmap option_map].
  erewrite PyFacts.decode_encode; [reflexivity|].
  assert (H1 : Py.encode (Py.lit "command:" ++ [Py.LF; Py.LF]) =
               Some (Py.blit "command:" ++ NL ++ NL)) by reflexivity.
  assert (H2 : Py.encode (Py.lit "stdout:" ++ [Py.LF; Py.LF]) =
               Some (Py.blit "stdout:" ++ NL ++ NL)) by reflexivity.
  assert (H3 : Py.encode (Py.lit "stderr:" ++ [Py.LF; Py.LF]) =
               Some (Py.blit "stderr:" ++ NL ++ NL)) by reflexivity.
  assert (HL : Py.encode [Py.LF] = Some NL) by reflexivity.
  rewrite !(app_assoc (Py.lit _) [Py.LF; Py.LF]).
  apply (DiagnosticFacts.encode_app _ _ _ _ H1).
  apply (DiagnosticFacts.encode_app _ _ _ _ Hc).
  apply (DiagnosticFacts.encode_app _ _ _ _ HL).
  apply (DiagnosticFacts.encode_app _ _ _ _ H2).
  apply (DiagnosticFacts.encode_app _ _ _ _ Ho).
  apply (DiagnosticFacts.encode_app _ _ _ _ HL).
  apply (DiagnosticFacts.encode_app _ _ _ _ H3).
  apply (DiagnosticFacts.encode_app _ _ _ _ Hr).
  exact HL.
Qed.

Section KeyShape.
Context {P : Platform} {W : World}.

(** X17. When no line holds a surrogate code point, the lines joined by
    newlines have UTF-8 octets and [hash_requirements] returns the SHA-1
    digest of those octets as forty lower-case hexadecimal digits; when a
    line holds one, it raises [UnicodeEncodeError].  Either way nothing is
    changed. *)
Theorem hash_requirements_key_shape (reqs : list (list N)) (st : state) :
  (Forall (Forall (fun c => is_scalar c = true)) reqs ->
   exists data,
     Py.encode (Py.join [Py.LF] reqs) = Some data /\
     hash_requirements reqs st = (Ret (SHA1.hexdigest data), st) /\
     length (SHA1.hexdigest data) = 40%nat /\
     Forall (fun c => is_hex_digit c = true) (SHA1.hexdigest data)) /\
  (~ Forall (Forall (fun c => is_scalar c = true)) reqs ->
   hash_requirements reqs st = (Raise UnicodeEncodeError, st)).
Proof.
  assert (Hlf : Forall (fun c => is_scalar c = true) [Py.LF])
    by (repeat constructor).
  pose proof (KeyFacts.Forall_join_iff _ _ reqs Hlf) as Hjoin.
  rewrite KeyFacts.encode_scalar in Hjoin.
  unfold hash_requirements, reqs_digest_input. split.
  - intros [data Hdata]%Hjoin. exists data. rewrite Hdata.
    destruct (KeyFacts.hexdigest_shape data) as [Hlen Hall]. auto.
  - intros Hbad. destruct (Py.encode _) as [data|]; [|reflexivity].
    exfalso. apply Hbad, Hjoin. eauto.
Qed.

End KeyShape.

(** X18. On POSIX the executable directory of an environment at the rooted
    path [/c1/.../cn] is [/c1/.../cn/bin], and inside the scoped activation
    the search path is that directory, a colon and the prior search path. *)
Theorem posix_bin_dir (cwd executable : list N) (comps : list (list N))
    (env : gmap (list N) (list N)) :
  Forall (fun comp => comp <> [] /\ ~ In Posix.sep comp) comps ->
  let venv := Posix.sep :: Py.join [Posix.sep] comps in
  let bin := Posix.sep :: Py.join [Posix.sep] (comps ++ [Py.lit "bin"]) in
  @bin_dir (Posix.platform cwd executable) venv = bin /\
  @activate (Posix.platform cwd executable) venv env !! Py.lit "PATH" =
    Some (bin ++ Py.lit ":" ++ default [] (env !! Py.lit "PATH")).
Proof.
  intros Hsafe. cbv zeta.
  assert (Hbin : @bin_dir (Posix.platform cwd executable)
                   (Posix.sep :: Py.join [Posix.sep] comps) =
                 Posix.sep :: Py.join [Posix.sep] (comps ++ [Py.lit "bin"])).
  { unfold bin_dir. cbn [os_name path_join Posix.platform].
    rewrite decide_False by discriminate.
    unfold Posix.join. cbn [fold_left].
    now apply PosixFacts.join_step_snoc. }
  split; [exact Hbin|].
  rewrite activate_lookup. rewrite decide_True by reflexivity.
  now rewrite Hbin.
Qed.

(** ** The further properties at the concrete run *)

Module CoverageRun.
Import Scenario.

Definition active : list N := Py.lit "/home/u/.cache/pre-commit/repo/py_env".

Definition dir : list N :=
  @cache_path platform active (SHA1.hexdigest one_line_octets).




Lemma read_requirements_lines_witness :
  let st := sim_start (manifest two_lines) (tools 0 0 0) env0 ∅ in
  fs_read (world st) (Py.lit "requirements.txt") = ReadText two_lines /\
  exists lines,
    @read_requirements _ (Py.lit "requirements.txt") st =
      (Ret lines, logged [EvOpen (Py.lit "requirements.txt")] st) /\
    concat lines = two_lines /\
    Forall (fun line => line <> [] /\ ~ In Py.LF (removelast line)) lines /\
    Forall (fun line => List.last line 0%N = Py.LF) (removelast lines).
Proof.
  intros st.
  assert (H : fs_read (world st) (Py.lit "requirements.txt") = ReadText two_lines)
    by reflexivity.
  split; [exact H|].
  exact (@read_requirements_lines _ (Py.lit "requirements.txt") st two_lines H).
Defined.



Lemma main_unreadable_manifest_witness :
  let st := sim_start (manifest one_line) (tools 0 0 0) env0 ∅ in
  let missing := {| requirements := Py.lit "absent.txt"; files := [] |} in
  (forall text, fs_read (world st) (requirements missing) <> ReadText text) /\
  @main platform _ missing st =
    (Raise (OSError 2), logged [EvOpen (Py.lit "absent.txt")] st).
Proof.
  intros st missing.
  assert (H : forall text,
             fs_read (world st) (requirements missing) <> ReadText text)
    by (intros text; discriminate).
  split; [exact H|].
  exact (@main_unreadable_manifest platform _ missing st H).
Defined.

Lemma main_empty_manifest_witness :
  let st := sim_start (manifest []) (tools 0 0 0) env0 ∅ in
  (fs_read (world st) (requirements args) = ReadText [] /\
   environ st !! Py.lit "VIRTUAL_ENV" = Some active) /\
  exists evs,
    trace (snd (@main platform _ args st)) =
    trace st ++ EvOpen (requirements args)
             :: EvExists (@cache_path platform active
                            (Py.lit "da39a3ee5e6b4b0d3255bfef95601890afd80709"))
             :: evs.
Proof.
  intros st.
  assert (Hread : fs_read (world st) (requirements args) = ReadText [])
    by reflexivity.
  assert (Hactive : environ st !! Py.lit "VIRTUAL_ENV" = Some active)
    by (vm_compute; reflexivity).
  split; [auto|].
  exact (@main_empty_manifest platform _ args st active Hread Hactive).
Defined.

Lemma distinct_manifests_distinct_digest_inputs_witness :
  let d1 := one_line_octets in
  let d2 := Py.blit "pylint==3.0.0" ++ [x0a; x0a]
            ++ Py.blit "astroid==3.0.1" ++ [x0a] in
  (one_line <> two_lines /\
   reqs_digest_input (Py.readlines one_line) = Some d1 /\
   reqs_digest_input (Py.readlines two_lines) = Some d2) /\
  d1 <> d2.
Proof.
  intros d1 d2.
  assert (Hne : one_line <> two_lines) by discriminate.
  assert (H1 : reqs_digest_input (Py.readlines one_line) = Some d1)
    by (vm_compute; reflexivity).
  assert (H2 : reqs_digest_input (Py.readlines two_lines) = Some d2)
    by (vm_compute; reflexivity).
  split; [auto|].
  exact (distinct_manifests_distinct_digest_inputs _ _ _ _ Hne H1 H2).
Defined.

Definition active_comps : list (list N) :=
  map Py.lit ["home"; "u"; ".cache"; "pre-commit"; "repo"; "py_env"]%string.

Lemma active_comps_plain : Forall plain active_comps.
Proof.
  repeat constructor; try discriminate;
    vm_compute; intros H;
    repeat (destruct H as [H|H]; [discriminate H|]); exact H.
Qed.

Lemma posix_venv_cache_dir_witness :
  let st := sim_start (manifest one_line) (tools 0 0 0) env0 ∅ in
  (active_comps <> [] /\ Forall plain active_comps /\
   environ st !! Py.lit "VIRTUAL_ENV" =
     Some (Posix.sep :: Py.join [Posix.sep] active_comps)) /\
  @venv_cache_dir platform _ (SHA1.hexdigest one_line_octets) st = (Ret venv, st).
Proof.
  intros st.
  assert (Hne : active_comps <> []) by discriminate.
  assert (Hactive : environ st !! Py.lit "VIRTUAL_ENV" =
                    Some (Posix.sep :: Py.join [Posix.sep] active_comps))
    by (vm_compute; reflexivity).
  split; [auto using active_comps_plain|].
  unfold platform.
  rewrite (posix_venv_cache_dir _ _ active_comps one_line_octets st
             Hne active_comps_plain Hactive).
  apply (f_equal (fun dir => (Ret dir, st))). vm_compute. reflexivity.
Defined.

Lemma hash_requirements_key_shape_witness :
  let st := sim_start (manifest one_line) (tools 0 0 0) env0 ∅ in
  let key := Py.lit "66711a8dedd2bdf222feaec9b22f6bb320426413" in
  let lone := [Py.lit "pylint" ++ [0xDC80%N; Py.LF]] in
  (Forall (Forall (fun c => is_scalar c = true)) (Py.readlines one_line) /\
   ~ Forall (Forall (fun c => is_scalar c = true)) lone) /\
  @hash_requirements _ (Py.readlines one_line) st = (Ret key, st) /\
  length key = 40%nat /\ Forall (fun c => is_hex_digit c = true) key /\
  @hash_requirements _ lone st = (Raise UnicodeEncodeError, st).
Proof.
  intros st key lone.
  assert (Hgood : Forall (Forall (fun c => is_scalar c = true))
                    (Py.readlines one_line))
    by (repeat constructor).
  assert (Hbad : ~ Forall (Forall (fun c => is_scalar c = true)) lone).
  { intros H. inversion H as [|? ? Hline _]. clear H.
    do 6 (inversion Hline as [|? ? _ Hline']; clear Hline;
          rename Hline' into Hline).
    inversion Hline as [|? ? Hc _]. discriminate Hc. }
  split; [auto|].
  destruct (@hash_requirements_key_shape _ (Py.readlines one_line) st)
    as [Hkey _].
  destruct (Hkey Hgood) as (data & Hdata & Hret & Hlen & Hall).
  assert (Hd : data = one_line_octets).
  { assert (H : Py.encode (Py.join [Py.LF] (Py.readlines one_line)) =
                Some one_line_octets) by (vm_compute; reflexivity).
    rewrite H in Hdata. now injection Hdata. }
  subst data.
  replace key with (SHA1.hexdigest one_line_octets) by (vm_compute; reflexivity).
  repeat (split; [assumption|]).
  exact (proj2 (@hash_requirements_key_shape _ lone st) Hbad).
Defined.


Lemma process_error_to_str_formats_witness :
  (Py.encode (Py.lit "pip install x") = Some (Py.blit "pip install x") /\
   Py.encode (Py.lit "out") = Some (Py.blit "out") /\
   Py.encode (Py.lit "err") = Some (Py.blit "err")) /\
  process_error_to_str
    {| returncode := 1; cmd := PyBytes (Py.blit "pip install x");
       stdout := PyBytes (Py.blit "out"); stderr := PyBytes (Py.blit "err") |} =
  Ret (Py.lit "command:" ++ [Py.LF; Py.LF] ++ Py.lit "pip install x" ++ [Py.LF] ++
       Py.lit "stdout:" ++ [Py.LF; Py.LF] ++ Py.lit "out" ++ [Py.LF] ++
       Py.lit "stderr:" ++ [Py.LF; Py.LF] ++ Py.lit "err" ++ [Py.LF]).
Proof.
  assert (Hc : Py.encode (Py.lit "pip install x") = Some (Py.blit "pip install x"))
    by reflexivity.
  assert (Ho : Py.encode (Py.lit "out") = Some (Py.blit "out")) by reflexivity.
  assert (Hr : Py.encode (Py.lit "err") = Some (Py.blit "err")) by reflexivity.
  split; [auto|].
  exact (process_error_to_str_formats 1 _ _ _ _ _ _ Hc Ho Hr).
Defined.

Lemma posix_bin_dir_witness :
  let comps := removelast active_comps
               ++ [Py.lit "pylint_venvs";
                   Py.lit "66711a8dedd2bdf222feaec9b22f6bb320426413"] in
  Forall (fun comp => comp <> [] /\ ~ In Posix.sep comp) comps /\
  @bin_dir platform venv = venv ++ Py.lit "/bin".
Proof.
  intros comps.
  assert (H : Forall (fun comp => comp <> [] /\ ~ In Posix.sep comp) comps).
  { repeat constructor; try discriminate;
      vm_compute; intros H;
      repeat (destruct H as [H|H]; [discriminate H|]); exact H. }
  split; [exact H|].
  destruct (posix_bin_dir (Py.lit "/work") (Py.lit "/usr/bin/python3")
              comps ∅ H) as [Hbin _].
  etransitivity; [exact Hbin|]. vm_compute. reflexivity.
Defined.

Lemma process_error_to_str_type_error_witness :
  let st := sim_start (manifest one_line) (tools 3 0 0) env0 ∅ in
  let pe := {| returncode := 3; cmd := PyTuple (@create_cmd platform dir);
               stdout := PyBytes (Py.blit "created");
               stderr := PyBytes (Py.blit "virtualenv: failed") |} in
  fst (call (@create_cmd platform dir) true st) = Raise (ProcessError pe) /\
  process_error_to_str pe = Raise TypeError.
Proof.
  intros st pe.
  assert (H : fst (call (@create_cmd platform dir) true st) =
              Raise (ProcessError pe)) by (vm_compute; reflexivity).
  split; [exact H|].
  exact (proj2 (process_error_to_str_type_error pe) _ _ _ _ H).
Defined.

End CoverageRun.
